(** * Table components of reflex (reflex/components/datadisplay/table.py)

    A shallow embedding of the [create] class methods of [Table], [Thead],
    [Tbody], [Tfoot] and [Tr], of the three shape validators, and of the
    [invalid_children] class attributes, followed by the properties of the
    component trees they build. *)

From Stdlib Require Import List String ZArith Bool.
Import ListNotations.
Open Scope string_scope.
Open Scope list_scope.

Set Implicit Arguments.
Set Warnings "-register-all".

(** ** Python classes and type annotations *)

(** The classes the module can meet.  [c_user name base] is a class declared
    as [class name(base)], for instance a subclass of [list]. *)
Inductive pyclass : Type :=
| c_list
| c_tuple
| c_NoneType
| c_bool
| c_int
| c_str
| c_dict
| c_Var
| c_Component (tag : string)
| c_user (name : string) (base : pyclass).

(** The declared type [type_] of a [Var]: a bare class ([list], [int]), a
    subscripted generic ([List[int]], [Tuple[str, int]], [Dict[str, int]]),
    a union ([Union[int, str]]; [Optional[X]] is [Union[X, None]]), or
    [Any].  A subscripted generic and a union have at least one argument,
    [__args__[0]]. *)
Inductive pytype : Type :=
| TyClass (c : pyclass)
| TyGeneric (origin : pyclass) (arg0 : pytype) (args : list pytype)
| TyUnion (arg0 : pytype) (args : list pytype)
| TyAny.

(** [hasattr(t, "__args__")] and [t.__args__[0]] in one step. *)
Definition first_arg (t : pytype) : option pytype :=
  match t with
  | TyClass _ => None
  | TyGeneric _ a _ => Some a
  | TyUnion a _ => Some a
  | TyAny => None
  end.

(** Modelled from the spec: [types.get_base_class] (reflex/utils/types.py is
    not part of the sources at hand).  The spec reads the checks as "is this a
    list or tuple, possibly wrapped in a reactive value, with list/tuple
    elements": the base class of a bare class is the class, the base class of
    a subscripted generic is its origin.  For a union and for [Any] what is
    returned is not a class object ([None] here): it is in no tuple of
    classes, and [issubclass] raises on it. *)
Definition get_base_class (t : pytype) : option pyclass :=
  match t with
  | TyClass c => Some c
  | TyGeneric origin _ _ => Some origin
  | TyUnion _ _ => None
  | TyAny => None
  end.

(** [c in (list, tuple)]: membership by identity of the class object. *)
Definition in_list_tuple (c : pyclass) : bool :=
  match c with
  | c_list | c_tuple => true
  | _ => false
  end.

(** [b in (list, tuple)] for what [get_base_class] returns. *)
Definition base_in_list_tuple (b : option pyclass) : bool :=
  match b with
  | Some c => in_list_tuple c
  | None => false
  end.

(** [issubclass(c, (List, Tuple))] for a class: the class or one of its
    bases is [list] or [tuple]. *)
Fixpoint issubclass_list_tuple (c : pyclass) : bool :=
  match c with
  | c_list | c_tuple => true
  | c_user _ base => issubclass_list_tuple base
  | _ => false
  end.

(** ** Python values *)

(** The class of a sequence object: [list], [tuple], or a subclass. *)
Inductive seq_type : Type :=
| SeqList
| SeqTuple
| SeqSub (name : string) (base : seq_type).

Fixpoint seq_class (k : seq_type) : pyclass :=
  match k with
  | SeqList => c_list
  | SeqTuple => c_tuple
  | SeqSub name base => c_user name (seq_class base)
  end.

(** The two cell classes [Tr.create] chooses from. *)
Inductive cell_cls : Type := Th | Td.

(** The callables handed to [Foreach.create]: the lambda of [Tbody.create],
    [lambda row: Tr.create(cell_type="data", cells=row)], and the bound
    [cell_cls.create] of [Tr.create]. *)
Inductive render_fn : Type :=
| RenderRow
| RenderCell (cls : cell_cls).

(** Values that reach the module: plain data, sequences, reactive values
    ([Var], with its declared [type_]) and component nodes.  A component node
    holds its tag, its children and its props; a [Foreach] node holds the
    iterable and the render function. *)
Inductive pyval : Type :=
| PNone
| PBool (b : bool)
| PInt (z : Z)
| PStr (s : string)
| PSeq (k : seq_type) (items : list pyval)
| PVar (type_ : pytype) (name : string)
| PComponent (tag : string) (children : list pyval) (props : list (string * pyval))
| PForeach (iterable : pyval) (render : render_fn).

Definition props_t : Type := list (string * pyval).

(** [type(v)]. *)
Definition py_type (v : pyval) : pyclass :=
  match v with
  | PNone => c_NoneType
  | PBool _ => c_bool
  | PInt _ => c_int
  | PStr _ => c_str
  | PSeq k _ => seq_class k
  | PVar _ _ => c_Var
  | PComponent tag _ _ => c_Component tag
  | PForeach _ _ => c_Component "Foreach"
  end.

(** [isinstance(v, Var)]. *)
Definition isinstance_Var (v : pyval) : bool :=
  match v with
  | PVar _ _ => true
  | _ => false
  end.

(** [isinstance(v, (list, tuple))]. *)
Definition isinstance_list_tuple (v : pyval) : bool :=
  issubclass_list_tuple (py_type v).

(** [v is not None]. *)
Definition is_not_None (v : pyval) : bool :=
  match v with
  | PNone => false
  | _ => true
  end.

(** ** Exceptions *)

(** The text of an exception.  [MsgGot] keeps the argument of the f-string
    of [validate_rows] unformatted; [MsgChild] stands for the text of the
    nesting error of the base class, of which the two class names are kept. *)
Inductive message : Type :=
| Msg (text : string)
| MsgGot (before : string) (got : pytype) (after : string)
| MsgChild (parent child : string).

Inductive exn : Type :=
| TypeError (msg : message)
| ValueError (msg : message)
| OtherError (name : string) (msg : message).

Inductive result (A : Type) : Type :=
| Ok (a : A)
| Raise (e : exn).

Arguments Ok {A} a.
Arguments Raise {A} e.

Definition bind {A B : Type} (r : result A) (f : A -> result B) : result B :=
  match r with
  | Ok a => f a
  | Raise e => Raise e
  end.

Notation "x <- c1 ;; c2" := (bind c1 (fun x => c2))
  (at level 61, c1 at next level, right associativity).
Notation "c1 ;;; c2" := (bind c1 (fun _ => c2))
  (at level 61, right associativity).

(** A list comprehension whose body may raise: left to right, stopping at the
    first exception. *)
Fixpoint comprehension {A B : Type} (f : A -> result B) (l : list A)
  : result (list B) :=
  match l with
  | [] => Ok []
  | a :: l' => b <- f a ;; bs <- comprehension f l' ;; Ok (b :: bs)
  end.

(** [issubclass(b, (List, Tuple))] for what [get_base_class] returns: on a
    value that is not a class Python raises its own [TypeError]. *)
Definition py_issubclass_list_tuple (b : option pyclass) : result bool :=
  match b with
  | Some c => Ok (issubclass_list_tuple c)
  | None => Raise (TypeError (Msg "issubclass() arg 1 must be a class"))
  end.

(** ** The class attributes *)

Definition headers_msg : string := "table headers should be a list or tuple".
Definition rows_msg : string :=
  "table rows should be a list or tuple containing inner lists or tuples.".
Definition rows_var_msg : string :=
  "table rows should be a list or tuple containing inner lists or tuples. Got ".

(** [cls.tag] of the cell classes. *)
Definition cell_tag (cls : cell_cls) : string :=
  match cls with
  | Th => "Th"
  | Td => "Td"
  end.

(** [invalid_children] of the class with the given tag; [Table],
    [TableCaption] and [TableContainer] declare none. *)
Definition invalid_children (tag : string) : list string :=
  if tag =? "Thead" then ["Tbody"; "Thead"; "Tfoot"]
  else if tag =? "Tbody" then ["Tbody"; "Thead"; "Tfoot"; "Td"; "Th"]
  else if tag =? "Tfoot" then ["Tbody"; "Thead"; "Td"; "Th"; "Tfoot"]
  else if tag =? "Tr" then ["Tbody"; "Thead"; "Tfoot"; "Tr"]
  else if tag =? "Th" then ["Tbody"; "Thead"; "Tr"; "Td"; "Th"]
  else if tag =? "Td" then ["Tbody"; "Thead"]
  else [].

(** [name] is listed in [invalid_children] of the class tagged [parent]. *)
Definition disallowed (parent name : string) : bool :=
  existsb (String.eqb name) (invalid_children parent).

(** ** The collaborators outside the module *)

(** The class name under which a child is checked: a component answers with
    the name of its class, which for the classes of the module is their tag;
    plain data has none. *)
Definition class_name (v : pyval) : option string :=
  match v with
  | PComponent tag _ _ => Some tag
  | PForeach _ _ => Some "Foreach"
  | _ => None
  end.

(** The class name for which [child] is refused under [parent], if it is. *)
Definition rejected_name (parent : string) (child : pyval) : option string :=
  match class_name child with
  | Some name => if disallowed parent name then Some name else None
  | None => None
  end.

(** The first child, from the left, that [parent] refuses. *)
Fixpoint first_rejected (parent : string) (children : list pyval)
  : option string :=
  match children with
  | [] => None
  | child :: rest =>
      match rejected_name parent child with
      | Some name => Some name
      | None => first_rejected parent rest
      end
  end.

(** Modelled from the spec: [Component.create], inherited through
    [ChakraComponent] (reflex/components/component.py is not part of the
    sources at hand).  The spec describes "transient tree nodes ... each
    holding a tag name and a list of child nodes; their only invariant is
    structural nesting validity enforced by a disallowed-children list per
    node type": [super().create( *children, **props)] on a class with tag
    [tag] raises a [ValueError] for the first child whose class is listed in
    the [invalid_children] of the class, and otherwise is the node with that
    tag, those children and those props. *)
Definition Component_create (tag : string) (children : list pyval)
  (props : props_t) : result pyval :=
  match first_rejected tag children with
  | Some name => Raise (ValueError (MsgChild tag name))
  | None => Ok (PComponent tag children props)
  end.

(** Modelled from the spec: [Foreach.create] (reflex/components/layout/foreach.py
    is not part of the sources at hand), the spec's "dynamic list rendering":
    a node that keeps the reactive iterable and the function rendering one
    element. *)
Definition Foreach_create (iterable : pyval) (render : render_fn) : pyval :=
  PForeach iterable render.

(** [Th.create(cell)] and [Td.create(cell)]: neither class overrides
    [create]. *)
Definition cell_create (cls : cell_cls) (cell : pyval) : result pyval :=
  Component_create (cell_tag cls) [cell] [].

(** The node [Th.create(cell)] or [Td.create(cell)] returns when it
    returns. *)
Definition cell_node (cls : cell_cls) (cell : pyval) : pyval :=
  PComponent (cell_tag cls) [cell] [].

(** The node [TableCaption.create(caption)] returns: [TableCaption] declares
    no invalid children, so the inherited constructor never refuses. *)
Definition TableCaption_create (caption : pyval) : pyval :=
  PComponent "TableCaption" [caption] [].

(** What Python does with objects whose classes live outside the module
    ([Var], [Component]) when they are tested for truth or iterated: left
    open, every result below holds whatever they do. *)
Record object_protocol : Type := {
  object_bool : pyval -> bool;
  object_iter : pyval -> result (list pyval)
}.

(** One such protocol, for the worked examples: every object is true and
    none can be iterated. *)
Definition opaque_objects : object_protocol :=
  {| object_bool := fun _ => true;
     object_iter := fun _ =>
       Raise (TypeError (Msg "object is not iterable")) |}.

(** ** The module *)

Section Table.

Variable obj : object_protocol.

(** [bool(v)]. *)
Definition py_truthy (v : pyval) : bool :=
  match v with
  | PNone => false
  | PBool b => b
  | PInt z => negb (Z.eqb z 0)
  | PStr s => negb (s =? EmptyString)
  | PSeq _ items => negb (Nat.eqb (List.length items) 0)
  | PVar _ _ | PComponent _ _ _ | PForeach _ _ => object_bool obj v
  end.

(** [v or default]. *)
Definition py_or (v default : pyval) : pyval :=
  if py_truthy v then v else default.

(** [for x in v]: the elements a [for] loop or a comprehension visits, or the
    [TypeError] of a value that is not iterable.  A string yields its
    characters. *)
Definition py_iter (v : pyval) : result (list pyval) :=
  match v with
  | PNone => Raise (TypeError (Msg "'NoneType' object is not iterable"))
  | PBool _ => Raise (TypeError (Msg "'bool' object is not iterable"))
  | PInt _ => Raise (TypeError (Msg "'int' object is not iterable"))
  | PStr s =>
      Ok (map (fun a => PStr (String a EmptyString)) (list_ascii_of_string s))
  | PSeq _ items => Ok items
  | PVar _ _ | PComponent _ _ _ | PForeach _ _ => object_iter obj v
  end.

(** The empty list literal [[]]. *)
Definition empty_list : pyval := PSeq SeqList [].

(** [types = {"header": Th, "data": Td}; types.get(cell_type)]. *)
Definition cell_types_get (cell_type : string) : option cell_cls :=
  if cell_type =? "header" then Some Th
  else if cell_type =? "data" then Some Td
  else None.

(** [Tr.create( *children, cell_type=<empty string>, cells=None, **props)];
    the inference runs under [len(children) == 0 and cell_cls]. *)
Definition Tr_create (children : list pyval) (cell_type : string)
  (cells : pyval) (props : props_t) : result pyval :=
  let cell_cls := cell_types_get cell_type in
  children <-
    match Nat.eqb (List.length children) 0, cell_cls with
    | true, Some cls =>
        if isinstance_Var cells then
          Ok [Foreach_create cells (RenderCell cls)]
        else
          items <- py_iter (py_or cells empty_list) ;;
          comprehension (cell_create cls) items
    | _, _ => Ok children
    end ;;
  Component_create "Tr" children props.

(** Calling the function handed to [Foreach.create] on one element. *)
Definition call_render_fn (f : render_fn) (x : pyval) : result pyval :=
  match f with
  | RenderRow => Tr_create [] "data" x []
  | RenderCell cls => cell_create cls x
  end.

(** [Thead.validate_headers(headers)].  The condition is
    [(isinstance(headers, Var) and B1) or (not isinstance(headers, Var) and B2)]. *)
Definition validate_headers (headers : pyval) : result unit :=
  if (match headers with
      | PVar type_ _ => negb (base_in_list_tuple (get_base_class type_))
      | _ => false
      end
      || (negb (isinstance_Var headers)
          && negb (base_in_list_tuple
                     (get_base_class (TyClass (py_type headers))))))%bool
  then Raise (TypeError (Msg headers_msg))
  else Ok tt.

(** [Thead.create( *children, headers=None, **props)]. *)
Definition Thead_create (children : list pyval) (headers : pyval)
  (props : props_t) : result pyval :=
  children <-
    (if Nat.eqb (List.length children) 0 then
       validate_headers headers ;;;
       tr <- Tr_create [] "header" headers [] ;;
       Ok [tr]
     else Ok children) ;;
  Component_create "Thead" children props.

(** [Tbody.validate_rows(rows)].  For a [Var] the two [issubclass] calls run
    in the order of the [and] and the [or], each raising on a base that is
    not a class.  In the branch of plain values [rows[0]] is read only when
    [rows] is a non-empty list or tuple. *)
Definition validate_rows (rows : pyval) : result unit :=
  match rows with
  | PVar outer_type _ =>
      let inner_type := first_arg outer_type in
      accepted <-
        (outer_ok <- py_issubclass_list_tuple (get_base_class outer_type) ;;
         if outer_ok then
           match inner_type with
           | None => Ok true
           | Some t => py_issubclass_list_tuple (get_base_class t)
           end
         else Ok false) ;;
      if negb accepted
      then Raise (TypeError (MsgGot rows_var_msg outer_type " instead"))
      else Ok tt
  | _ =>
      if negb (isinstance_list_tuple rows
               && (negb (py_truthy rows)
                   || match rows with
                      | PSeq _ (row0 :: _) => isinstance_list_tuple row0
                      | _ => false
                      end))%bool
      then Raise (TypeError (Msg rows_msg))
      else Ok tt
  end.

(** [Tbody.create( *children, rows=None, **props)]. *)
Definition Tbody_create (children : list pyval) (rows : pyval)
  (props : props_t) : result pyval :=
  children <-
    (if Nat.eqb (List.length children) 0 then
       validate_rows rows ;;;
       if isinstance_Var rows then
         Ok [Foreach_create rows RenderRow]
       else
         items <- py_iter (py_or rows empty_list) ;;
         comprehension (fun row => Tr_create [] "data" row []) items
     else Ok children) ;;
  Component_create "Tbody" children props.

(** [Tfoot.validate_footers(footers)]; the message names the headers. *)
Definition validate_footers (footers : pyval) : result unit :=
  if (match footers with
      | PVar type_ _ => negb (base_in_list_tuple (get_base_class type_))
      | _ => false
      end
      || (negb (isinstance_Var footers)
          && negb (base_in_list_tuple
                     (get_base_class (TyClass (py_type footers))))))%bool
  then Raise (TypeError (Msg "table headers should be a list or tuple"))
  else Ok tt.

(** [Tfoot.create( *children, footers=None, **props)]. *)
Definition Tfoot_create (children : list pyval) (footers : pyval)
  (props : props_t) : result pyval :=
  children <-
    (if Nat.eqb (List.length children) 0 then
       validate_footers footers ;;;
       tr <- Tr_create [] "header" footers [] ;;
       Ok [tr]
     else Ok children) ;;
  Component_create "Tfoot" children props.

(** [Table.create( *children, caption=None, headers=None, rows=None,
    footers=None, **props)]: the four [append]s in order;
    [TableCaption.create] is the inherited constructor. *)
Definition Table_create (children : list pyval)
  (caption headers rows footers : pyval) (props : props_t) : result pyval :=
  children <-
    (if Nat.eqb (List.length children) 0 then
       let children := [] in
       children <-
         (if is_not_None caption
          then cap <- Component_create "TableCaption" [caption] [] ;;
               Ok (children ++ [cap])
          else Ok children) ;;
       children <-
         (if is_not_None headers
          then th <- Thead_create [] headers [] ;; Ok (children ++ [th])
          else Ok children) ;;
       children <-
         (if is_not_None rows
          then tb <- Tbody_create [] rows [] ;; Ok (children ++ [tb])
          else Ok children) ;;
       children <-
         (if is_not_None footers
          then tf <- Tfoot_create [] footers [] ;; Ok (children ++ [tf])
          else Ok children) ;;
       Ok children
     else Ok children) ;;
  Component_create "Table" children props.

(** ** Vocabulary of the properties *)

(** The key under which [Tr.create] finds a cell class. *)
Definition cell_type_of (cls : cell_cls) : string :=
  match cls with
  | Th => "header"
  | Td => "data"
  end.

(** The tag of a component node. *)
Definition tag_of (v : pyval) : option string :=
  match v with
  | PComponent tag _ _ => Some tag
  | _ => None
  end.

(** The children of a component node. *)
Definition children_of (v : pyval) : list pyval :=
  match v with
  | PComponent _ children _ => children
  | _ => []
  end.

(** The props of a component node. *)
Definition props_of (v : pyval) : props_t :=
  match v with
  | PComponent _ _ props => props
  | _ => []
  end.

(** The same node under another tag. *)
Definition with_tag (tag : string) (v : pyval) : pyval :=
  match v with
  | PComponent _ children props => PComponent tag children props
  | _ => v
  end.

(** The elements of a sequence. *)
Definition items_of (v : pyval) : list pyval :=
  match v with
  | PSeq _ items => items
  | _ => []
  end.

(** A plain list or tuple: an object whose class is [list] or [tuple]
    itself. *)
Definition plain_list_or_tuple (v : pyval) : bool :=
  match v with
  | PSeq SeqList _ | PSeq SeqTuple _ => true
  | _ => false
  end.

(** A declared type that is a list or tuple type: [list], [tuple], or one of
    them subscripted. *)
Definition list_tuple_type (t : pytype) : bool :=
  match t with
  | TyClass c_list | TyClass c_tuple => true
  | TyGeneric c_list _ _ | TyGeneric c_tuple _ _ => true
  | _ => false
  end.

(** List/tuple-like, in the words of the claims on headers and footers: a
    plain list or tuple, or a [Var] whose declared type is a list or tuple
    type. *)
Definition list_tuple_like (v : pyval) : bool :=
  (plain_list_or_tuple v
   || match v with
      | PVar type_ _ => list_tuple_type type_
      | _ => false
      end)%bool.

(** The nodes a render function builds for the elements of a sequence, one
    per element and in order. *)
Definition static_nodes (f : render_fn) (items : list pyval)
  : result (list pyval) :=
  comprehension (call_render_fn f) items.

(** [l] when the argument [arg] is not [None], nothing otherwise. *)
Definition when_given {A : Type} (arg : pyval) (l : list A) : list A :=
  if is_not_None arg then l else [].

(** No element of [cells] is a component the cell class refuses as its
    child. *)
Definition cells_accepted (cls : cell_cls) (cells : list pyval) : bool :=
  match first_rejected (cell_tag cls) cells with
  | Some _ => false
  | None => true
  end.

(** A valid row of a plain [rows]: a list or tuple whose elements the data
    cell accepts. *)
Definition valid_row (row : pyval) : bool :=
  (isinstance_list_tuple row && cells_accepted Td (items_of row))%bool.

(** The two errors [validate_rows] raises for the shape of [rows]. *)
Definition shape_error (e : exn) : Prop :=
  e = TypeError (Msg rows_msg)
  \/ exists t, e = TypeError (MsgGot rows_var_msg t " instead").

(** [Tbody.create] without explicit children raises the shape-validation
    error: [validate_rows] raises it and it reaches the caller. *)
Definition raises_shape_error (rows : pyval) (props : props_t) : Prop :=
  exists e,
    shape_error e
    /\ validate_rows rows = Raise e
    /\ Tbody_create [] rows props = Raise e.

(** A declared type that is a list or tuple type, subclasses included. *)
Definition declared_list_tuple (t : pytype) : bool :=
  match get_base_class t with
  | Some c => issubclass_list_tuple c
  | None => false
  end.

(** The declared type of a [Var]-wrapped [rows] is off: the outer type is not
    a list or tuple type, or the element type it declares is not one. *)
Definition rows_type_malformed (t : pytype) : bool :=
  (negb (declared_list_tuple t)
   || match first_arg t with
      | Some a => negb (declared_list_tuple a)
      | None => false
      end)%bool.

(** Malformed rows in the words of the claim on [Tbody.create]: not a list
    or tuple, or a list or tuple whose elements are not all lists or
    tuples. *)
Definition rows_malformed_all (rows : pyval) : bool :=
  match rows with
  | PVar type_ _ => rows_type_malformed type_
  | _ =>
      (negb (isinstance_list_tuple rows)
       || negb (forallb isinstance_list_tuple (items_of rows)))%bool
  end.

(** A section of [Table.create] that does not stop the construction: its
    argument is [None], or its constructor returned a node. *)
Definition section_built (arg : pyval) (r : result pyval) : Prop :=
  is_not_None arg = false \/ exists node, r = Ok node.

(** A section of [Table.create] that is asked for and raises [e]. *)
Definition section_raises (arg : pyval) (r : result pyval) (e : exn) : Prop :=
  is_not_None arg = true /\ r = Raise e.

(** The cell [Tr.create] builds for one character of a string. *)
Definition char_cell (cls : cell_cls) (a : Ascii.ascii) : pyval :=
  cell_node cls (PStr (String a EmptyString)).

(** *** Nesting *)

(** [child] may sit directly under a node tagged [parent]: it is not a
    component whose class name the parent lists. *)
Definition child_allowed (parent : string) (child : pyval) : bool :=
  match rejected_name parent child with
  | Some _ => false
  | None => true
  end.

(** Nesting validity of a tree: every child, at every depth, may sit under
    its parent. *)
Fixpoint nesting_ok (v : pyval) : bool :=
  match v with
  | PComponent tag children _ =>
      forallb (fun c => (child_allowed tag c && nesting_ok c)%bool) children
  | _ => true
  end.

(** The values the caller supplies as the cells of one row are validly
    nested in themselves. *)
Definition cells_built_ok (cells : pyval) : bool :=
  if isinstance_Var cells then true
  else
    match py_iter (py_or cells empty_list) with
    | Ok items => forallb nesting_ok items
    | Raise _ => true
    end.

(** The same for every row of a plain [rows]. *)
Definition rows_built_ok (rows : pyval) : bool :=
  forallb cells_built_ok (items_of rows).

(** ** The base constructor *)

Lemma bind_Ok (A B : Type) (r : result A) (f : A -> result B) (b : B) :
  bind r f = Ok b -> exists a, r = Ok a /\ f a = Ok b.
Proof. destruct r as [a | e]; [intros H; exists a; auto | discriminate]. Qed.

Lemma Component_create_Ok (tag : string) (children : list pyval)
  (props : props_t) (node : pyval) :
  Component_create tag children props = Ok node ->
  first_rejected tag children = None /\ node = PComponent tag children props.
Proof.
  unfold Component_create.
  destruct (first_rejected tag children); [discriminate |].
  intros H. injection H as <-. split; reflexivity.
Qed.

Lemma Component_create_accepts (tag : string) (children : list pyval)
  (props : props_t) :
  first_rejected tag children = None ->
  Component_create tag children props = Ok (PComponent tag children props).
Proof. intros H. unfold Component_create. rewrite H. reflexivity. Qed.

Lemma Component_create_refuses (tag : string) (children : list pyval)
  (props : props_t) (name : string) :
  first_rejected tag children = Some name ->
  Component_create tag children props
  = Raise (ValueError (MsgChild tag name)).
Proof. intros H. unfold Component_create. rewrite H. reflexivity. Qed.

(** A class without a list refuses nothing. *)
Lemma first_rejected_no_list (tag : string) (children : list pyval) :
  invalid_children tag = [] -> first_rejected tag children = None.
Proof.
  intros H. induction children as [| c children IH]; [reflexivity |].
  cbn [first_rejected]. unfold rejected_name, disallowed. rewrite H.
  destruct (class_name c); exact IH.
Qed.

Lemma Component_create_Table (children : list pyval) (props : props_t) :
  Component_create "Table" children props
  = Ok (PComponent "Table" children props).
Proof. apply Component_create_accepts, first_rejected_no_list. reflexivity. Qed.

Lemma Component_create_TableCaption (caption : pyval) :
  Component_create "TableCaption" [caption] []
  = Ok (TableCaption_create caption).
Proof. apply Component_create_accepts, first_rejected_no_list. reflexivity. Qed.

(** Children that all carry one tag the parent does not list are accepted. *)
Lemma first_rejected_one_tag (parent tag : string) (children : list pyval) :
  disallowed parent tag = false ->
  Forall (fun c => tag_of c = Some tag) children ->
  first_rejected parent children = None.
Proof.
  intros Hd Hall. induction Hall as [| c children Hc _ IH]; [reflexivity |].
  cbn [first_rejected]. unfold rejected_name.
  destruct c; try discriminate Hc. cbn [tag_of] in Hc. injection Hc as ->.
  cbn [class_name]. rewrite Hd. exact IH.
Qed.

Lemma first_rejected_child_allowed (parent : string) (children : list pyval) :
  first_rejected parent children = None
  <-> forallb (child_allowed parent) children = true.
Proof.
  induction children as [| c children IH]; [split; reflexivity |].
  cbn [first_rejected forallb]. unfold child_allowed at 1.
  destruct (rejected_name parent c).
  - split; discriminate.
  - exact IH.
Qed.

(** ** Rows and cells *)

Lemma cell_types_get_of (cls : cell_cls) :
  cell_types_get (cell_type_of cls) = Some cls.
Proof. destruct cls; reflexivity. Qed.

Lemma cell_types_get_other (cell_type : string) :
  cell_type <> "header" -> cell_type <> "data" ->
  cell_types_get cell_type = None.
Proof.
  intros Hh Hd. unfold cell_types_get.
  destruct (String.eqb_spec cell_type "header") as [E | _]; [contradiction |].
  destruct (String.eqb_spec cell_type "data") as [E | _]; [contradiction |].
  reflexivity.
Qed.

(** Iterating [cells or []] over a sequence visits its items. *)
Lemma py_iter_or_seq (k : seq_type) (items : list pyval) :
  py_iter (py_or (PSeq k items) empty_list) = Ok items.
Proof. destruct items; reflexivity. Qed.

Lemma cell_create_spec (cls : cell_cls) (cell : pyval) :
  cell_create cls cell
  = match rejected_name (cell_tag cls) cell with
    | Some name => Raise (ValueError (MsgChild (cell_tag cls) name))
    | None => Ok (cell_node cls cell)
    end.
Proof.
  unfold cell_create, Component_create. cbn [first_rejected].
  destruct (rejected_name (cell_tag cls) cell); reflexivity.
Qed.

(** The cells of a row are built from left to right; the first element the
    cell class refuses stops the row. *)
Lemma cells_comprehension (cls : cell_cls) (items : list pyval) :
  comprehension (cell_create cls) items
  = match first_rejected (cell_tag cls) items with
    | Some name => Raise (ValueError (MsgChild (cell_tag cls) name))
    | None => Ok (map (cell_node cls) items)
    end.
Proof.
  induction items as [| c items IH]; [reflexivity |].
  cbn [comprehension first_rejected map]. rewrite cell_create_spec.
  destruct (rejected_name (cell_tag cls) c); [reflexivity |].
  cbn [bind]. rewrite IH.
  destruct (first_rejected (cell_tag cls) items); reflexivity.
Qed.

(** A row accepts cells of either class. *)
Lemma Tr_accepts_cells (cls : cell_cls) (items : list pyval) :
  first_rejected "Tr" (map (cell_node cls) items) = None.
Proof.
  apply first_rejected_one_tag with (tag := cell_tag cls).
  - destruct cls; reflexivity.
  - apply Forall_forall. intros c Hin. apply in_map_iff in Hin.
    destruct Hin as (x & <- & _). reflexivity.
Qed.

Lemma Tr_create_seq (cls : cell_cls) (k : seq_type) (items : list pyval)
  (props : props_t) :
  Tr_create [] (cell_type_of cls) (PSeq k items) props
  = match first_rejected (cell_tag cls) items with
    | Some name => Raise (ValueError (MsgChild (cell_tag cls) name))
    | None => Ok (PComponent "Tr" (map (cell_node cls) items) props)
    end.
Proof.
  unfold Tr_create. rewrite cell_types_get_of.
  cbn [List.length Nat.eqb isinstance_Var].
  rewrite py_iter_or_seq. cbn [bind]. rewrite cells_comprehension.
  destruct (first_rejected (cell_tag cls) items); [reflexivity |].
  cbn [bind]. apply Component_create_accepts, Tr_accepts_cells.
Qed.

Lemma Tr_create_var (cls : cell_cls) (t : pytype) (n : string)
  (props : props_t) :
  Tr_create [] (cell_type_of cls) (PVar t n) props
  = Ok (PComponent "Tr" [PForeach (PVar t n) (RenderCell cls)] props).
Proof. unfold Tr_create. rewrite cell_types_get_of. reflexivity. Qed.

Lemma Tr_create_Ok (children : list pyval) (cell_type : string)
  (cells : pyval) (props : props_t) (tr : pyval) :
  Tr_create children cell_type cells props = Ok tr ->
  exists children', tr = PComponent "Tr" children' props.
Proof.
  unfold Tr_create. intros H. apply bind_Ok in H.
  destruct H as (ch & _ & H). exists ch.
  apply Component_create_Ok in H. apply H.
Qed.

(** The static nodes of a cell render function are the cells themselves. *)
Lemma static_nodes_cells (cls : cell_cls) (items : list pyval) :
  first_rejected (cell_tag cls) items = None ->
  static_nodes (RenderCell cls) items = Ok (map (cell_node cls) items).
Proof.
  intros H. unfold static_nodes.
  change (call_render_fn (RenderCell cls)) with (cell_create cls).
  rewrite cells_comprehension, H. reflexivity.
Qed.

(** ** The validators against the vocabulary *)

Lemma validate_headers_spec (headers : pyval) :
  validate_headers headers
  = if list_tuple_like headers then Ok tt
    else Raise (TypeError (Msg headers_msg)).
Proof.
  destruct headers as [| b | z | s | k items | t n | tag ch pr | it f];
    try reflexivity.
  - destruct k; reflexivity.
  - destruct t as [c | o a l | a l |]; [destruct c | destruct o | |];
      reflexivity.
Qed.

Lemma validate_footers_spec (footers : pyval) :
  validate_footers footers
  = if list_tuple_like footers then Ok tt
    else Raise (TypeError (Msg "table headers should be a list or tuple")).
Proof.
  destruct footers as [| b | z | s | k items | t n | tag ch pr | it f];
    try reflexivity.
  - destruct k; reflexivity.
  - destruct t as [c | o a l | a l |]; [destruct c | destruct o | |];
      reflexivity.
Qed.

(** A list/tuple-like value is a plain sequence or a [Var]. *)
Lemma list_tuple_like_inv (v : pyval) :
  list_tuple_like v = true ->
  (exists k items, v = PSeq k items /\ plain_list_or_tuple v = true)
  \/ (exists t n, v = PVar t n /\ list_tuple_type t = true).
Proof.
  destruct v as [| b | z | s | k items | t n | tag ch pr | it f];
    cbn; try discriminate.
  - intros H. left. exists k, items. split; [reflexivity |].
    destruct k; [reflexivity | reflexivity | discriminate].
  - intros H. right. exists t, n. split; [reflexivity | exact H].
Qed.

(** The header row of a list/tuple-like value: [Th] cells, unless an element
    is refused by [Th]. *)
Lemma header_row (v : pyval) (props : props_t) :
  list_tuple_like v = true ->
  Tr_create [] "header" v props
  = match first_rejected "Th" (items_of v) with
    | Some name => Raise (ValueError (MsgChild "Th" name))
    | None =>
        Ok (PComponent "Tr"
              match v with
              | PSeq _ items => map (cell_node Th) items
              | _ => [PForeach v (RenderCell Th)]
              end props)
    end.
Proof.
  intros H.
  destruct (list_tuple_like_inv v H) as [(k & items & -> & _) | (t & n & -> & _)].
  - exact (Tr_create_seq Th k items props).
  - exact (Tr_create_var Th t n props).
Qed.

(** [Thead.create] and [Tfoot.create] on a value their validator accepts. *)
Lemma Thead_create_validated (v : pyval) (props : props_t) :
  list_tuple_like v = true ->
  Thead_create [] v props
  = (tr <- Tr_create [] "header" v [] ;; Ok (PComponent "Thead" [tr] props)).
Proof.
  intros H. unfold Thead_create. cbn [List.length Nat.eqb].
  rewrite validate_headers_spec, H. cbn [bind].
  destruct (Tr_create [] "header" v []) as [tr | e] eqn:Htr; [| reflexivity].
  destruct (Tr_create_Ok _ _ _ _ Htr) as (ch & ->). reflexivity.
Qed.

Lemma Tfoot_create_validated (v : pyval) (props : props_t) :
  list_tuple_like v = true ->
  Tfoot_create [] v props
  = (tr <- Tr_create [] "header" v [] ;; Ok (PComponent "Tfoot" [tr] props)).
Proof.
  intros H. unfold Tfoot_create. cbn [List.length Nat.eqb].
  rewrite validate_footers_spec, H. cbn [bind].
  destruct (Tr_create [] "header" v []) as [tr | e] eqn:Htr; [| reflexivity].
  destruct (Tr_create_Ok _ _ _ _ Htr) as (ch & ->). reflexivity.
Qed.

Lemma cells_accepted_None (cls : cell_cls) (items : list pyval) :
  cells_accepted cls items = true ->
  first_rejected (cell_tag cls) items = None.
Proof.
  unfold cells_accepted.
  destruct (first_rejected (cell_tag cls) items); [discriminate | reflexivity].
Qed.

(** ** Inference of the header row *)

(** C1, amended: for a plain list or tuple [headers] none of whose elements
    is a component that [Th] lists in [invalid_children], [Thead.create]
    without explicit children returns a [Thead] node whose only child is the
    row that [Tr.create(cell_type="header", cells=headers)] builds, and that
    row holds one [Th] cell per header, in the order of [headers]; when an
    element is such a component, the constructor raises the [ValueError] of
    the first one. *)
Theorem Thead_create_header_row (items : list pyval) (props : props_t) :
  let row := PComponent "Tr" (map (cell_node Th) items) [] in
  (cells_accepted Th items = true ->
   (Tr_create [] "header" (PSeq SeqList items) [] = Ok row
    /\ Thead_create [] (PSeq SeqList items) props
       = Ok (PComponent "Thead" [row] props))
   /\ (Tr_create [] "header" (PSeq SeqTuple items) [] = Ok row
       /\ Thead_create [] (PSeq SeqTuple items) props
          = Ok (PComponent "Thead" [row] props))
   /\ map children_of (children_of row) = map (fun h => [h]) items
   /\ Forall (fun cell => tag_of cell = Some "Th") (children_of row))
  /\ (forall name,
      first_rejected "Th" items = Some name ->
      Thead_create [] (PSeq SeqList items) props
      = Raise (ValueError (MsgChild "Th" name))
      /\ Thead_create [] (PSeq SeqTuple items) props
         = Raise (ValueError (MsgChild "Th" name))).
Proof.
  cbv zeta.
  pose proof (Tr_create_seq Th SeqList items []) as Hl.
  pose proof (Tr_create_seq Th SeqTuple items []) as Ht.
  cbn [cell_type_of cell_tag] in Hl, Ht.
  pose proof (Thead_create_validated (PSeq SeqList items) props eq_refl) as Tl.
  pose proof (Thead_create_validated (PSeq SeqTuple items) props eq_refl) as Tt.
  split.
  - intros Hacc. apply cells_accepted_None in Hacc. cbn [cell_tag] in Hacc.
    rewrite Hacc in Hl, Ht. rewrite Hl in Tl. rewrite Ht in Tt.
    repeat split; try assumption.
    + cbn [children_of]. rewrite map_map. reflexivity.
    + cbn [children_of]. apply Forall_forall. intros cell Hin.
      apply in_map_iff in Hin. destruct Hin as (h & <- & _). reflexivity.
  - intros name Hrej. rewrite Hrej in Hl, Ht.
    rewrite Hl in Tl. rewrite Ht in Tt. split; assumption.
Qed.

(** C3, amended: for a list (or tuple) [cells] none of whose elements is a
    component that the chosen cell class lists in [invalid_children],
    [Tr.create] without explicit children takes the cell class from
    [cell_type]: "header" gives a row of [Th] cells and "data" a row of [Td]
    cells, one cell per element of [cells], each cell holding its element;
    when an element is such a component, the cell constructor raises the
    [ValueError] of the first one. *)
Theorem Tr_create_cell_type (k : seq_type) (items : list pyval)
  (props : props_t) :
  (cells_accepted Th items = true ->
   Tr_create [] "header" (PSeq k items) props
   = Ok (PComponent "Tr" (map (cell_node Th) items) props))
  /\ (cells_accepted Td items = true ->
      Tr_create [] "data" (PSeq k items) props
      = Ok (PComponent "Tr" (map (cell_node Td) items) props))
  /\ List.length (map (cell_node Th) items) = List.length items
  /\ List.length (map (cell_node Td) items) = List.length items
  /\ Forall (fun cell => tag_of cell = Some "Th") (map (cell_node Th) items)
  /\ Forall (fun cell => tag_of cell = Some "Td") (map (cell_node Td) items)
  /\ (forall cls name,
      first_rejected (cell_tag cls) items = Some name ->
      Tr_create [] (cell_type_of cls) (PSeq k items) props
      = Raise (ValueError (MsgChild (cell_tag cls) name))).
Proof.
  split; [| split; [| split; [| split; [| split; [| split]]]]].
  - intros H. apply cells_accepted_None in H.
    pose proof (Tr_create_seq Th k items props) as E.
    rewrite H in E. exact E.
  - intros H. apply cells_accepted_None in H.
    pose proof (Tr_create_seq Td k items props) as E.
    rewrite H in E. exact E.
  - apply length_map.
  - apply length_map.
  - apply Forall_forall; intros cell Hin; apply in_map_iff in Hin;
      destruct Hin as (c & <- & _); reflexivity.
  - apply Forall_forall; intros cell Hin; apply in_map_iff in Hin;
      destruct Hin as (c & <- & _); reflexivity.
  - intros cls name H. rewrite Tr_create_seq, H. reflexivity.
Qed.

(** C10: for a [cell_type] other than "header" and "data" (the default empty
    string among them), [Tr.create] without explicit children raises nothing,
    does not look at [cells], and returns a row without children. *)
Theorem Tr_create_unknown_cell_type (cell_type : string) (cells : pyval)
  (props : props_t) :
  cell_type <> "header" -> cell_type <> "data" ->
  Tr_create [] cell_type cells props = Ok (PComponent "Tr" [] props).
Proof.
  intros Hh Hd. unfold Tr_create.
  rewrite (cell_types_get_other Hh Hd). reflexivity.
Qed.

(** ** Explicit children *)

Lemma length_eqb_0_nonempty (A : Type) (l : list A) :
  l <> [] -> Nat.eqb (List.length l) 0 = false.
Proof. destruct l; [contradiction | reflexivity]. Qed.

(** C4: with a non-empty tuple of explicit children, [Table.create],
    [Thead.create], [Tbody.create] and [Tfoot.create] infer and validate
    nothing: whatever [caption], [headers], [rows] and [footers] are, the
    result is that of the inherited constructor on the children passed, and a
    node it returns has exactly these children. *)
Theorem explicit_children_bypass (children : list pyval)
  (caption headers rows footers : pyval) (props : props_t) :
  children <> [] ->
  Table_create children caption headers rows footers props
  = Ok (PComponent "Table" children props)
  /\ Thead_create children headers props
     = Component_create "Thead" children props
  /\ Tbody_create children rows props
     = Component_create "Tbody" children props
  /\ Tfoot_create children footers props
     = Component_create "Tfoot" children props
  /\ (forall tag,
      first_rejected tag children = None ->
      Component_create tag children props
      = Ok (PComponent tag children props))
  /\ (forall tag node,
      Component_create tag children props = Ok node ->
      tag_of node = Some tag /\ children_of node = children).
Proof.
  intros Hne. pose proof (length_eqb_0_nonempty Hne) as E.
  unfold Table_create, Thead_create, Tbody_create, Tfoot_create.
  rewrite E. cbn [bind].
  split; [apply Component_create_Table |].
  split; [reflexivity |]. split; [reflexivity |]. split; [reflexivity |].
  split.
  - intros tag. apply Component_create_accepts.
  - intros tag node H. apply Component_create_Ok in H.
    destruct H as (_ & ->). split; reflexivity.
Qed.

(** ** Validation of headers and footers *)

(** C6, amended: a [headers] (or [footers]) value that is not
    list/tuple-like makes [Thead.create] (or [Tfoot.create]) without explicit
    children raise a [TypeError]; a list/tuple-like value passes the
    validation and makes neither raise, unless an element of the plain list
    or tuple is a component that [Th] lists in [invalid_children], for the
    first of which the cell constructor raises a [ValueError]. *)
Theorem headers_footers_validation (v : pyval) (props : props_t) :
  (list_tuple_like v = false ->
   Thead_create [] v props
   = Raise (TypeError (Msg "table headers should be a list or tuple"))
   /\ Tfoot_create [] v props
      = Raise (TypeError (Msg "table headers should be a list or tuple")))
  /\ (list_tuple_like v = true ->
      validate_headers v = Ok tt
      /\ validate_footers v = Ok tt
      /\ match first_rejected "Th" (items_of v) with
         | None =>
             exists thead tfoot,
               Thead_create [] v props = Ok thead
               /\ Tfoot_create [] v props = Ok tfoot
         | Some name =>
             Thead_create [] v props
             = Raise (ValueError (MsgChild "Th" name))
             /\ Tfoot_create [] v props
                = Raise (ValueError (MsgChild "Th" name))
         end).
Proof.
  split; intros H.
  - unfold Thead_create, Tfoot_create. cbn [List.length Nat.eqb].
    rewrite validate_headers_spec, validate_footers_spec, H.
    split; reflexivity.
  - rewrite validate_headers_spec, validate_footers_spec, H.
    split; [reflexivity |]. split; [reflexivity |].
    rewrite (Thead_create_validated v props H),
      (Tfoot_create_validated v props H), (header_row v [] H).
    destruct (first_rejected "Th" (items_of v)).
    + split; reflexivity.
    + cbn [bind]. eexists. eexists. split; reflexivity.
Qed.

(** C9: for a list/tuple-like [footers], [Tfoot.create] without explicit
    children builds its only row with [cell_type="header"], so the footer
    cells are [Th] nodes; and when [footers] fails validation the
    [TypeError] reads "table headers should be a list or tuple". *)
Theorem Tfoot_create_header_cells (v : pyval) (props : props_t) :
  (list_tuple_like v = true ->
   Tfoot_create [] v props
   = (tr <- Tr_create [] "header" v [] ;; Ok (PComponent "Tfoot" [tr] props))
   /\ (forall tfoot,
       Tfoot_create [] v props = Ok tfoot ->
       exists cells,
         Tr_create [] "header" v [] = Ok (PComponent "Tr" cells [])
         /\ tfoot = PComponent "Tfoot" [PComponent "Tr" cells []] props
         /\ match v with
            | PSeq _ items => cells = map (cell_node Th) items
            | _ => cells = [PForeach v (RenderCell Th)]
            end)
   /\ (cells_accepted Th (items_of v) = true ->
       exists tfoot, Tfoot_create [] v props = Ok tfoot))
  /\ (forall e, validate_footers v = Raise e ->
      e = TypeError (Msg "table headers should be a list or tuple")
      /\ Tfoot_create [] v props = Raise e).
Proof.
  split.
  - intros H. pose proof (Tfoot_create_validated v props H) as E.
    pose proof (header_row v [] H) as Hrow.
    split; [exact E |]. split.
    + intros tfoot Hfoot. rewrite E in Hfoot.
      destruct (first_rejected "Th" (items_of v)).
      * rewrite Hrow in Hfoot. discriminate Hfoot.
      * rewrite Hrow in Hfoot. cbn [bind] in Hfoot. injection Hfoot as <-.
        eexists. split; [exact Hrow |]. split; [reflexivity |].
        destruct v; reflexivity.
    + intros Hacc. apply cells_accepted_None in Hacc. cbn [cell_tag] in Hacc.
      rewrite E, Hrow, Hacc. cbn [bind]. eexists. reflexivity.
  - intros e He. unfold Tfoot_create. cbn [List.length Nat.eqb].
    rewrite He. cbn [bind]. split; [| reflexivity].
    rewrite validate_footers_spec in He.
    destruct (list_tuple_like v); [discriminate | congruence].
Qed.

(** ** Validation of rows *)

Lemma isinstance_seq (k : seq_type) (items : list pyval) :
  isinstance_list_tuple (PSeq k items) = true.
Proof.
  unfold isinstance_list_tuple. cbn [py_type].
  induction k as [| | name base IH]; [reflexivity | reflexivity | exact IH].
Qed.

Lemma isinstance_list_tuple_inv (v : pyval) :
  isinstance_list_tuple v = true -> exists k items, v = PSeq k items.
Proof.
  destruct v as [| b | z | s | k items | t n | tag ch pr | it f];
    cbn; try discriminate.
  intros _. exists k, items. reflexivity.
Qed.

(** On a plain sequence [validate_rows] looks at the first element only. *)
Lemma validate_rows_seq (k : seq_type) (items : list pyval) :
  validate_rows (PSeq k items)
  = match items with
    | [] => Ok tt
    | row0 :: _ =>
        if isinstance_list_tuple row0 then Ok tt
        else Raise (TypeError (Msg rows_msg))
    end.
Proof.
  unfold validate_rows. rewrite isinstance_seq.
  destruct items as [| row0 items]; [reflexivity |].
  cbn. destruct (isinstance_list_tuple row0); reflexivity.
Qed.

(** An error of [validate_rows] is the result of [Tbody.create]. *)
Lemma Tbody_create_validation_error (rows : pyval) (props : props_t) (e : exn) :
  validate_rows rows = Raise e -> Tbody_create [] rows props = Raise e.
Proof.
  intros H. unfold Tbody_create. cbn [List.length Nat.eqb].
  rewrite H. reflexivity.
Qed.

(** C2: [Tbody.create(rows=[[1], "ab"])].  The second row is neither a
    list nor a tuple, so the rows are not a list of list/tuple rows; yet
    [validate_rows] looks at [rows[0]] only, nothing is raised, and the
    string is laid out as a row of its characters. *)
Theorem rows_checked_by_first_element_only :
  rows_malformed_all (PSeq SeqList [PSeq SeqList [PInt 1]; PStr "ab"]) = true
  /\ validate_rows (PSeq SeqList [PSeq SeqList [PInt 1]; PStr "ab"]) = Ok tt
  /\ Tbody_create [] (PSeq SeqList [PSeq SeqList [PInt 1]; PStr "ab"]) []
     = Ok (PComponent "Tbody"
             [PComponent "Tr" [PComponent "Td" [PInt 1] []] [];
              PComponent "Tr"
                [PComponent "Td" [PStr "a"] []; PComponent "Td" [PStr "b"] []]
                []] [])
  /\ ~ raises_shape_error
       (PSeq SeqList [PSeq SeqList [PInt 1]; PStr "ab"]) [].
Proof.
  split; [reflexivity |]. split; [reflexivity |]. split; [reflexivity |].
  intros (e & _ & He & _). discriminate He.
Qed.

(** [Tbody.create(rows=[[1], 5])] passes the validation as well; it is the
    iteration over the second row that raises, with Python's own message. *)
Lemma rows_later_element_not_iterable :
  validate_rows (PSeq SeqList [PSeq SeqList [PInt 1]; PInt 5]) = Ok tt
  /\ Tbody_create [] (PSeq SeqList [PSeq SeqList [PInt 1]; PInt 5]) []
     = Raise (TypeError (Msg "'int' object is not iterable")).
Proof. split; reflexivity. Qed.

(** ** Static and dynamic construction *)

Lemma static_nodes_rows (items : list pyval) :
  forallb valid_row items = true ->
  exists trs,
    static_nodes RenderRow items = Ok trs
    /\ List.length trs = List.length items
    /\ Forall (fun tr => tag_of tr = Some "Tr") trs.
Proof.
  unfold static_nodes.
  induction items as [| row items IH]; intros H.
  - exists []. repeat split; constructor.
  - cbn [forallb] in H. apply andb_true_iff in H. destruct H as [Hrow Hrest].
    unfold valid_row in Hrow. apply andb_true_iff in Hrow.
    destruct Hrow as [Hseq Hacc].
    destruct (isinstance_list_tuple_inv row Hseq) as (k & cells & ->).
    cbn [items_of] in Hacc. apply cells_accepted_None in Hacc.
    destruct (IH Hrest) as (trs & Htrs & Hlen & Htags).
    exists (PComponent "Tr" (map (cell_node Td) cells) [] :: trs).
    pose proof (Tr_create_seq Td k cells []) as Hrow'.
    rewrite Hacc in Hrow'. cbn [cell_type_of] in Hrow'.
    cbn [comprehension call_render_fn].
    rewrite Hrow'. cbn [bind]. rewrite Htrs.
    split; [reflexivity |]. split; [cbn; congruence |].
    constructor; [reflexivity | exact Htags].
Qed.

Lemma valid_rows_validated (k : seq_type) (items : list pyval) :
  forallb valid_row items = true ->
  validate_rows (PSeq k items) = Ok tt.
Proof.
  intros H. rewrite validate_rows_seq.
  destruct items as [| row0 items]; [reflexivity |].
  cbn [forallb] in H. apply andb_true_iff in H. destruct H as [H _].
  unfold valid_row in H. apply andb_true_iff in H. destruct H as [-> _].
  reflexivity.
Qed.

(** A body accepts rows. *)
Lemma Tbody_accepts_rows (trs : list pyval) (props : props_t) :
  Forall (fun tr => tag_of tr = Some "Tr") trs ->
  Component_create "Tbody" trs props = Ok (PComponent "Tbody" trs props).
Proof.
  intros H. apply Component_create_accepts.
  apply first_rejected_one_tag with (tag := "Tr"); [reflexivity | exact H].
Qed.

(** C5: being a [Var] decides between dynamic and static construction.  A
    valid [Var]-wrapped [rows] gives [Tbody] exactly one [Foreach] child
    whose function renders an element as [Tr.create(cell_type="data",
    cells=row)]; a plain list or tuple of valid rows gives one such row node
    per element.  Likewise [Tr.create] gives one [Foreach] child over
    [cell_cls.create] for a [Var], and one cell node per element for a plain
    sequence of cells the cell class accepts.  The static children are what
    the function kept by the [Foreach] builds for each element. *)
Theorem static_or_dynamic_construction :
  (forall t n props,
      validate_rows (PVar t n) = Ok tt ->
      Tbody_create [] (PVar t n) props
      = Ok (PComponent "Tbody" [PForeach (PVar t n) RenderRow] props))
  /\ (forall row, call_render_fn RenderRow row = Tr_create [] "data" row [])
  /\ (forall k items props,
      forallb valid_row items = true ->
      exists trs,
        static_nodes RenderRow items = Ok trs
        /\ List.length trs = List.length items
        /\ Tbody_create [] (PSeq k items) props
           = Ok (PComponent "Tbody" trs props))
  /\ (forall cls t n props,
      Tr_create [] (cell_type_of cls) (PVar t n) props
      = Ok (PComponent "Tr" [PForeach (PVar t n) (RenderCell cls)] props))
  /\ (forall cls cell,
      call_render_fn (RenderCell cls) cell = cell_create cls cell)
  /\ (forall cls k items props,
      cells_accepted cls items = true ->
      exists cells,
        static_nodes (RenderCell cls) items = Ok cells
        /\ List.length cells = List.length items
        /\ Tr_create [] (cell_type_of cls) (PSeq k items) props
           = Ok (PComponent "Tr" cells props)).
Proof.
  split; [| split; [| split; [| split; [| split]]]].
  - intros t n props H. unfold Tbody_create. cbn [List.length Nat.eqb].
    rewrite H. reflexivity.
  - reflexivity.
  - intros k items props H.
    destruct (static_nodes_rows items H) as (trs & Htrs & Hlen & Htags).
    exists trs. split; [exact Htrs |]. split; [exact Hlen |].
    unfold Tbody_create. cbn [List.length Nat.eqb].
    rewrite (valid_rows_validated k items H). cbn [bind isinstance_Var].
    rewrite py_iter_or_seq. cbn [bind].
    unfold static_nodes in Htrs. cbn [call_render_fn] in Htrs.
    change (comprehension (fun row => Tr_create [] "data" row []) items)
      with (comprehension (call_render_fn RenderRow) items).
    rewrite Htrs. cbn [bind]. apply Tbody_accepts_rows. exact Htags.
  - intros cls t n props. apply Tr_create_var.
  - reflexivity.
  - intros cls k items props H. apply cells_accepted_None in H.
    exists (map (cell_node cls) items).
    split; [apply static_nodes_cells; exact H |].
    split; [apply length_map |].
    rewrite Tr_create_seq, H. reflexivity.
Qed.

(** ** The children of a table *)

Lemma Thead_create_Ok (headers : pyval) (props : props_t) (thead : pyval) :
  Thead_create [] headers props = Ok thead ->
  exists tr,
    Tr_create [] "header" headers [] = Ok tr
    /\ thead = PComponent "Thead" [tr] props.
Proof.
  unfold Thead_create. cbn [List.length Nat.eqb]. intros H.
  apply bind_Ok in H. destruct H as (ch & H & Hnode).
  apply bind_Ok in H. destruct H as (_ & _ & H).
  apply bind_Ok in H. destruct H as (tr & Htr & Hch).
  exists tr. split; [exact Htr |].
  injection Hch as <-. apply Component_create_Ok in Hnode. apply Hnode.
Qed.

Lemma Tfoot_create_Ok (footers : pyval) (props : props_t) (tfoot : pyval) :
  Tfoot_create [] footers props = Ok tfoot ->
  exists tr,
    Tr_create [] "header" footers [] = Ok tr
    /\ tfoot = PComponent "Tfoot" [tr] props.
Proof.
  unfold Tfoot_create. cbn [List.length Nat.eqb]. intros H.
  apply bind_Ok in H. destruct H as (ch & H & Hnode).
  apply bind_Ok in H. destruct H as (_ & _ & H).
  apply bind_Ok in H. destruct H as (tr & Htr & Hch).
  exists tr. split; [exact Htr |].
  injection Hch as <-. apply Component_create_Ok in Hnode. apply Hnode.
Qed.

Lemma Tbody_create_Ok (rows : pyval) (props : props_t) (tbody : pyval) :
  Tbody_create [] rows props = Ok tbody ->
  validate_rows rows = Ok tt
  /\ exists children,
      tbody = PComponent "Tbody" children props
      /\ if isinstance_Var rows
         then children = [PForeach rows RenderRow]
         else exists items,
             py_iter (py_or rows empty_list) = Ok items
             /\ static_nodes RenderRow items = Ok children.
Proof.
  unfold Tbody_create. cbn [List.length Nat.eqb]. intros H.
  apply bind_Ok in H. destruct H as (ch & H & Hnode).
  apply bind_Ok in H. destruct H as ([] & Hv & H).
  split; [exact Hv |]. exists ch.
  split; [apply Component_create_Ok in Hnode; apply Hnode |].
  destruct (isinstance_Var rows).
  - injection H as <-. reflexivity.
  - apply bind_Ok in H. destruct H as (items & Hit & H).
    exists items. split; [exact Hit | exact H].
Qed.

(** [Table.create] without explicit children, section by section: the
    caption is always built and the table node always accepted, neither class
    declaring invalid children. *)
Lemma Table_create_inferred (caption headers rows footers : pyval)
  (props : props_t) :
  Table_create [] caption headers rows footers props
  = (theads <-
       (if is_not_None headers
        then th <- Thead_create [] headers [] ;; Ok [th] else Ok []) ;;
     tbodies <-
       (if is_not_None rows
        then tb <- Tbody_create [] rows [] ;; Ok [tb] else Ok []) ;;
     tfoots <-
       (if is_not_None footers
        then tf <- Tfoot_create [] footers [] ;; Ok [tf] else Ok []) ;;
     Ok (PComponent "Table"
           (when_given caption [TableCaption_create caption]
            ++ theads ++ tbodies ++ tfoots) props)).
Proof.
  unfold Table_create, when_given. cbn [List.length Nat.eqb].
  rewrite Component_create_TableCaption.
  destruct (is_not_None caption);
    destruct (is_not_None headers);
    try destruct (Thead_create [] headers []) as [th | eh];
    try reflexivity;
    destruct (is_not_None rows);
    try destruct (Tbody_create [] rows []) as [tb | eb];
    try reflexivity;
    destruct (is_not_None footers);
    try destruct (Tfoot_create [] footers []) as [tf | ef];
    try reflexivity;
    cbn [bind app]; apply Component_create_Table.
Qed.

(** What [Table.create] without explicit children returns, read backwards:
    every section asked for was built. *)
Lemma Table_create_Ok (caption headers rows footers : pyval)
  (props : props_t) (table : pyval) :
  Table_create [] caption headers rows footers props = Ok table ->
  exists theads tbodies tfoots,
    (if is_not_None headers
     then exists th, Thead_create [] headers [] = Ok th /\ theads = [th]
     else theads = [])
    /\ (if is_not_None rows
        then exists tb, Tbody_create [] rows [] = Ok tb /\ tbodies = [tb]
        else tbodies = [])
    /\ (if is_not_None footers
        then exists tf, Tfoot_create [] footers [] = Ok tf /\ tfoots = [tf]
        else tfoots = [])
    /\ table
       = PComponent "Table"
           (when_given caption [TableCaption_create caption]
            ++ theads ++ tbodies ++ tfoots) props.
Proof.
  rewrite Table_create_inferred. intros H.
  apply bind_Ok in H. destruct H as (theads & H1 & H).
  apply bind_Ok in H. destruct H as (tbodies & H2 & H).
  apply bind_Ok in H. destruct H as (tfoots & H3 & H).
  injection H as <-. exists theads, tbodies, tfoots.
  split; [| split; [| split; [| reflexivity]]].
  - destruct (is_not_None headers); [| congruence].
    apply bind_Ok in H1. destruct H1 as (th & Hth & H1).
    exists th. split; [exact Hth | congruence].
  - destruct (is_not_None rows); [| congruence].
    apply bind_Ok in H2. destruct H2 as (tb & Htb & H2).
    exists tb. split; [exact Htb | congruence].
  - destruct (is_not_None footers); [| congruence].
    apply bind_Ok in H3. destruct H3 as (tf & Htf & H3).
    exists tf. split; [exact Htf | congruence].
Qed.

(** C7: [Table.create] without explicit children lists its children in the
    order caption, header section, body section, footer section, each one
    there exactly when its argument is not [None] (the sections being what
    [Thead.create], [Tbody.create] and [Tfoot.create] return). *)
Theorem Table_create_children_order (caption headers rows footers : pyval)
  (props : props_t) (thead tbody tfoot : pyval) :
  (is_not_None headers = true -> Thead_create [] headers [] = Ok thead) ->
  (is_not_None rows = true -> Tbody_create [] rows [] = Ok tbody) ->
  (is_not_None footers = true -> Tfoot_create [] footers [] = Ok tfoot) ->
  let children :=
    when_given caption [TableCaption_create caption]
    ++ when_given headers [thead]
    ++ when_given rows [tbody]
    ++ when_given footers [tfoot] in
  Table_create [] caption headers rows footers props
  = Ok (PComponent "Table" children props)
  /\ map tag_of children
     = when_given caption [Some "TableCaption"]
       ++ when_given headers [Some "Thead"]
       ++ when_given rows [Some "Tbody"]
       ++ when_given footers [Some "Tfoot"].
Proof.
  intros Hh Hr Hf. cbv zeta. split.
  - rewrite Table_create_inferred. unfold when_given.
    destruct (is_not_None caption);
      destruct (is_not_None headers);
      destruct (is_not_None rows);
      destruct (is_not_None footers);
      try rewrite (Hh eq_refl); try rewrite (Hr eq_refl);
      try rewrite (Hf eq_refl); reflexivity.
  - unfold when_given.
    assert (Th' : is_not_None headers = true -> tag_of thead = Some "Thead").
    { intros E. destruct (Thead_create_Ok _ _ (Hh E)) as (tr & _ & ->).
      reflexivity. }
    assert (Tb' : is_not_None rows = true -> tag_of tbody = Some "Tbody").
    { intros E. destruct (Tbody_create_Ok _ _ (Hr E)) as (_ & ch & -> & _).
      reflexivity. }
    assert (Tf' : is_not_None footers = true -> tag_of tfoot = Some "Tfoot").
    { intros E. destruct (Tfoot_create_Ok _ _ (Hf E)) as (tr & _ & ->).
      reflexivity. }
    destruct (is_not_None caption);
      destruct (is_not_None headers);
      destruct (is_not_None rows);
      destruct (is_not_None footers);
      cbn [map app tag_of TableCaption_create];
      try rewrite (Th' eq_refl); try rewrite (Tb' eq_refl);
      try rewrite (Tf' eq_refl); reflexivity.
Qed.

(** ** Nesting validity *)

Lemma comprehension_Forall2 (A B : Type) (f : A -> result B) (l : list A)
  (l' : list B) :
  comprehension f l = Ok l' -> Forall2 (fun a b => f a = Ok b) l l'.
Proof.
  revert l'. induction l as [| a l IH]; intros l' H.
  - injection H as <-. constructor.
  - cbn [comprehension] in H.
    apply bind_Ok in H. destruct H as (b & Hb & H).
    apply bind_Ok in H. destruct H as (bs & Hbs & H).
    injection H as <-. constructor; [exact Hb | exact (IH bs Hbs)].
Qed.

(** A comprehension carries a property of the elements over to the nodes
    built from them. *)
Lemma comprehension_forallb (A B : Type) (f : A -> result B)
  (P : A -> bool) (Q : B -> bool) (l : list A) (l' : list B) :
  (forall a b, f a = Ok b -> P a = true -> Q b = true) ->
  comprehension f l = Ok l' ->
  forallb P l = true -> forallb Q l' = true.
Proof.
  intros Hf Hc. apply comprehension_Forall2 in Hc.
  induction Hc as [| a b l l' Hab _ IH]; [reflexivity |].
  cbn [forallb]. intros H. apply andb_true_iff in H. destruct H as [Ha Hl].
  rewrite (Hf a b Hab Ha), (IH Hl). reflexivity.
Qed.

(** The base constructor keeps trees validly nested: what it returns from
    validly nested children is validly nested. *)
Lemma Component_create_nesting (tag : string) (children : list pyval)
  (props : props_t) (node : pyval) :
  Component_create tag children props = Ok node ->
  forallb nesting_ok children = true ->
  nesting_ok node = true.
Proof.
  intros H Hch. apply Component_create_Ok in H. destruct H as (Hrej & ->).
  apply first_rejected_child_allowed in Hrej. cbn [nesting_ok].
  clear props. induction children as [| c children IH]; [reflexivity |].
  cbn [forallb] in *.
  apply andb_true_iff in Hrej. destruct Hrej as [-> Hrej].
  apply andb_true_iff in Hch. destruct Hch as [-> Hch].
  exact (IH Hrej Hch).
Qed.

Lemma cell_create_nesting (cls : cell_cls) (cell node : pyval) :
  cell_create cls cell = Ok node ->
  nesting_ok cell = true -> nesting_ok node = true.
Proof.
  intros H Hc. apply (Component_create_nesting _ _ _ H).
  cbn [forallb]. rewrite Hc. reflexivity.
Qed.

Lemma Tr_nesting (cell_type : string) (cells : pyval) (props : props_t)
  (tr : pyval) :
  Tr_create [] cell_type cells props = Ok tr ->
  cells_built_ok cells = true ->
  nesting_ok tr = true.
Proof.
  unfold Tr_create, cells_built_ok. cbn [List.length Nat.eqb].
  intros H Hok. apply bind_Ok in H. destruct H as (ch & Hch & Hnode).
  apply (Component_create_nesting _ _ _ Hnode).
  destruct (cell_types_get cell_type) as [cls |].
  - destruct (isinstance_Var cells).
    + injection Hch as <-. reflexivity.
    + apply bind_Ok in Hch. destruct Hch as (items & Hit & Hch).
      rewrite Hit in Hok.
      eapply comprehension_forallb; [| exact Hch | exact Hok].
      intros cell node. apply cell_create_nesting.
  - injection Hch as <-. reflexivity.
Qed.

Lemma Thead_nesting (headers : pyval) (props : props_t) (thead : pyval) :
  Thead_create [] headers props = Ok thead ->
  cells_built_ok headers = true ->
  nesting_ok thead = true.
Proof.
  intros H Hok. destruct (Thead_create_Ok _ _ H) as (tr & Htr & ->).
  pose proof (Tr_nesting _ _ _ Htr Hok) as Hn.
  destruct (Tr_create_Ok _ _ _ _ Htr) as (ch & ->).
  cbn [nesting_ok forallb] in *. rewrite Hn. reflexivity.
Qed.

Lemma Tfoot_nesting (footers : pyval) (props : props_t) (tfoot : pyval) :
  Tfoot_create [] footers props = Ok tfoot ->
  cells_built_ok footers = true ->
  nesting_ok tfoot = true.
Proof.
  intros H Hok. destruct (Tfoot_create_Ok _ _ H) as (tr & Htr & ->).
  pose proof (Tr_nesting _ _ _ Htr Hok) as Hn.
  destruct (Tr_create_Ok _ _ _ _ Htr) as (ch & ->).
  cbn [nesting_ok forallb] in *. rewrite Hn. reflexivity.
Qed.

Lemma Tbody_nesting (rows : pyval) (props : props_t) (tbody : pyval) :
  Tbody_create [] rows props = Ok tbody ->
  rows_built_ok rows = true ->
  nesting_ok tbody = true.
Proof.
  intros H Hok.
  destruct (Tbody_create_Ok _ _ H) as (Hv & ch & -> & Hch).
  destruct rows as [| b | z | s | k items | t n | tag c pr | it f];
    try discriminate Hv.
  - cbn [isinstance_Var] in Hch. destruct Hch as (items' & Hit & Hst).
    rewrite py_iter_or_seq in Hit. injection Hit as <-.
    unfold rows_built_ok in Hok. cbn [items_of] in Hok.
    cbn [nesting_ok]. unfold static_nodes in Hst.
    eapply comprehension_forallb; [| exact Hst | exact Hok].
    intros row tr Htr Hrow. cbn [call_render_fn] in Htr.
    rewrite (Tr_nesting _ _ _ Htr Hrow).
    destruct (Tr_create_Ok _ _ _ _ Htr) as (ch' & ->). reflexivity.
  - cbn [isinstance_Var] in Hch. subst ch. reflexivity.
Qed.

(** [Table] declares no invalid children. *)
Lemma child_allowed_Table (c : pyval) : child_allowed "Table" c = true.
Proof. destruct c; reflexivity. Qed.

(** C8: in the component tree [Table.create] returns from [caption],
    [headers], [rows] and [footers], no node is a direct child of a parent
    whose [invalid_children] lists its tag.  The components the caller hands
    in as caption or cells are taken to be validly nested themselves, as
    every tree the constructors return is. *)
Theorem Table_create_nesting (caption headers rows footers : pyval)
  (props : props_t) (table : pyval) :
  Table_create [] caption headers rows footers props = Ok table ->
  nesting_ok caption = true ->
  cells_built_ok headers = true ->
  rows_built_ok rows = true ->
  cells_built_ok footers = true ->
  nesting_ok table = true.
Proof.
  intros H Hc Hh Hr Hf.
  destruct (Table_create_Ok _ _ _ _ _ H)
    as (theads & tbodies & tfoots & Eh & Er & Ef & ->).
  cbn [nesting_ok]. rewrite !forallb_app.
  repeat (apply andb_true_iff; split).
  - unfold when_given. destruct (is_not_None caption); [| reflexivity].
    cbn [forallb TableCaption_create nesting_ok]. rewrite Hc.
    destruct caption; reflexivity.
  - destruct (is_not_None headers); [| subst theads; reflexivity].
    destruct Eh as (th & Hth & ->). cbn [forallb].
    rewrite child_allowed_Table, (Thead_nesting _ _ Hth Hh). reflexivity.
  - destruct (is_not_None rows); [| subst tbodies; reflexivity].
    destruct Er as (tb & Htb & ->). cbn [forallb].
    rewrite child_allowed_Table, (Tbody_nesting _ _ Htb Hr). reflexivity.
  - destruct (is_not_None footers); [| subst tfoots; reflexivity].
    destruct Ef as (tf & Htf & ->). cbn [forallb].
    rewrite child_allowed_Table, (Tfoot_nesting _ _ Htf Hf). reflexivity.
Qed.

(** ** Rows outside the claims: what [Tr.create] does with other cells *)

(** X5: with explicit children [Tr.create] infers nothing: whatever
    [cell_type] and [cells] are, its result is that of the inherited
    constructor on the children passed, which is the row holding exactly
    these children unless one of them is a component that [Tr] lists in
    [invalid_children]. *)
Theorem Tr_create_explicit_children (children : list pyval)
  (cell_type : string) (cells : pyval) (props : props_t) :
  children <> [] ->
  Tr_create children cell_type cells props
  = Component_create "Tr" children props
  /\ (first_rejected "Tr" children = None ->
      Tr_create children cell_type cells props
      = Ok (PComponent "Tr" children props))
  /\ (forall name,
      first_rejected "Tr" children = Some name ->
      Tr_create children cell_type cells props
      = Raise (ValueError (MsgChild "Tr" name))).
Proof.
  intros Hne.
  assert (E : Tr_create children cell_type cells props
              = Component_create "Tr" children props).
  { unfold Tr_create. rewrite (length_eqb_0_nonempty Hne). reflexivity. }
  split; [exact E |]. rewrite E. split.
  - apply Component_create_accepts.
  - intros name. apply Component_create_refuses.
Qed.

(** X6: a [cells] value that is not a [Var] and is false in Python ([None],
    [False], [0], the empty string, an empty list or tuple) gives a row
    without cells and no error: [cells or []] is the empty list. *)
Theorem Tr_create_falsy_cells (cls : cell_cls) (cells : pyval)
  (props : props_t) :
  isinstance_Var cells = false ->
  py_truthy cells = false ->
  Tr_create [] (cell_type_of cls) cells props = Ok (PComponent "Tr" [] props).
Proof.
  intros Hvar Hfalse. unfold Tr_create. rewrite cell_types_get_of.
  cbn [List.length Nat.eqb]. rewrite Hvar.
  unfold py_or. rewrite Hfalse. reflexivity.
Qed.

(** X7: a number that is true in Python is iterated and cannot be: a
    non-zero [int] and [True] as [cells] make [Tr.create] raise Python's
    "object is not iterable" [TypeError]. *)
Theorem Tr_create_number_cells (cls : cell_cls) (z : Z) (props : props_t) :
  z <> 0%Z ->
  Tr_create [] (cell_type_of cls) (PInt z) props
  = Raise (TypeError (Msg "'int' object is not iterable"))
  /\ Tr_create [] (cell_type_of cls) (PBool true) props
     = Raise (TypeError (Msg "'bool' object is not iterable")).
Proof.
  intros Hz. unfold Tr_create. rewrite cell_types_get_of.
  cbn [List.length Nat.eqb isinstance_Var]. unfold py_or.
  cbn [py_truthy]. apply Z.eqb_neq in Hz. rewrite Hz.
  split; reflexivity.
Qed.

Lemma length_list_ascii (s : string) :
  List.length (list_ascii_of_string s) = String.length s.
Proof.
  induction s as [| a s IH]; [reflexivity |].
  cbn [list_ascii_of_string List.length String.length]. rewrite IH.
  reflexivity.
Qed.

(** No class refuses a string. *)
Lemma first_rejected_strings (parent : string) (l : list Ascii.ascii) :
  first_rejected parent (map (fun a => PStr (String a EmptyString)) l) = None.
Proof. induction l as [| a l IH]; [reflexivity | exact IH]. Qed.

(** X8: a string as [cells] is iterated character by character: the row
    holds one cell per character, in order, each cell holding the
    one-character string. *)
Theorem Tr_create_string_cells (cls : cell_cls) (s : string)
  (props : props_t) :
  Tr_create [] (cell_type_of cls) (PStr s) props
  = Ok (PComponent "Tr" (map (char_cell cls) (list_ascii_of_string s)) props)
  /\ List.length (map (char_cell cls) (list_ascii_of_string s))
     = String.length s.
Proof.
  split.
  - unfold Tr_create. rewrite cell_types_get_of.
    cbn [List.length Nat.eqb isinstance_Var].
    assert (Hit : py_iter (py_or (PStr s) empty_list)
                  = Ok (map (fun a => PStr (String a EmptyString))
                          (list_ascii_of_string s)))
      by (destruct s; reflexivity).
    rewrite Hit. cbn [bind].
    rewrite cells_comprehension, first_rejected_strings. cbn [bind].
    rewrite map_map.
    change (fun x => cell_node cls (PStr (String x EmptyString)))
      with (char_cell cls).
    apply Component_create_accepts.
    apply first_rejected_one_tag with (tag := cell_tag cls).
    + destruct cls; reflexivity.
    + apply Forall_forall. intros c Hin. apply in_map_iff in Hin.
      destruct Hin as (x & <- & _). reflexivity.
  - rewrite length_map. apply length_list_ascii.
Qed.

(** ** The body outside the claims *)

Lemma comprehension_first_error (A B : Type) (f : A -> result B)
  (good : list A) (bad : A) (rest : list A) (e : exn) :
  Forall (fun a => exists b, f a = Ok b) good ->
  f bad = Raise e ->
  comprehension f (good ++ bad :: rest) = Raise e.
Proof.
  intros Hgood Hbad. induction Hgood as [| a good (b & Hb) _ IH].
  - cbn [app comprehension]. rewrite Hbad. reflexivity.
  - cbn [app comprehension]. rewrite Hb. cbn [bind]. rewrite IH. reflexivity.
Qed.

(** X3: the body [Tbody.create] returns for a plain [rows] has one child per
    element of [rows], in order, and the child of an element is what
    [Tr.create(cell_type="data", cells=row)] returns for it; this holds for
    the elements validation did not look at as well. *)
Theorem Tbody_create_row_per_element (k : seq_type) (items : list pyval)
  (props : props_t) (tbody : pyval) :
  Tbody_create [] (PSeq k items) props = Ok tbody ->
  Forall2 (fun row tr => Tr_create [] "data" row [] = Ok tr)
    items (children_of tbody)
  /\ List.length (children_of tbody) = List.length items.
Proof.
  intros H. destruct (Tbody_create_Ok _ _ H) as (_ & ch & -> & Hch).
  cbn [isinstance_Var] in Hch. destruct Hch as (items' & Hit & Hst).
  rewrite py_iter_or_seq in Hit. injection Hit as <-.
  cbn [children_of].
  pose proof (comprehension_Forall2 _ _ Hst) as HF.
  split; [exact HF |]. symmetry. exact (Forall2_length HF).
Qed.

(** X4: when [rows] passes validation, the rows are laid out from left to
    right and the first one [Tr.create] cannot lay out decides the outcome:
    its error is the error of [Tbody.create], and no body is returned. *)
Theorem Tbody_create_first_failing_row (k : seq_type)
  (good : list pyval) (bad : pyval) (rest : list pyval) (props : props_t)
  (e : exn) :
  validate_rows (PSeq k (good ++ bad :: rest)) = Ok tt ->
  Forall (fun row => exists tr, Tr_create [] "data" row [] = Ok tr) good ->
  Tr_create [] "data" bad [] = Raise e ->
  Tbody_create [] (PSeq k (good ++ bad :: rest)) props = Raise e.
Proof.
  intros Hv Hgood Hbad. unfold Tbody_create. cbn [List.length Nat.eqb].
  rewrite Hv. cbn [bind isinstance_Var]. rewrite py_iter_or_seq. cbn [bind].
  erewrite comprehension_first_error; [reflexivity | exact Hgood | exact Hbad].
Qed.

(** ** Errors and defaults of the constructors *)

Ltac section_is_built :=
  first [ left; reflexivity | right; eexists; reflexivity ].

(** X1: [Table.create] without explicit children raises exactly the error of
    the first section, in the order headers, rows, footers, that is asked for
    and raises; the sections after it are not built, and the caption plays no
    part. *)
Theorem Table_create_error_order (caption headers rows footers : pyval)
  (props : props_t) (e : exn) :
  Table_create [] caption headers rows footers props = Raise e
  <-> section_raises headers (Thead_create [] headers []) e
      \/ (section_built headers (Thead_create [] headers [])
          /\ section_raises rows (Tbody_create [] rows []) e)
      \/ (section_built headers (Thead_create [] headers [])
          /\ section_built rows (Tbody_create [] rows [])
          /\ section_raises footers (Tfoot_create [] footers []) e).
Proof.
  rewrite Table_create_inferred. unfold section_raises, section_built.
  destruct (is_not_None headers);
    destruct (Thead_create [] headers []) as [th | eh];
    destruct (is_not_None rows);
    destruct (Tbody_create [] rows []) as [tb | eb];
    destruct (is_not_None footers);
    destruct (Tfoot_create [] footers []) as [tf | ef];
    cbn [bind];
    (split;
     [ intros H; try discriminate H; injection H as <-;
       first
         [ solve [left; split; reflexivity]
         | solve [right; left; split; [section_is_built | split; reflexivity]]
         | solve [right; right;
                  split; [section_is_built |
                  split; [section_is_built | split; reflexivity]]] ]
     | intros H;
       repeat match goal with
         | H : _ \/ _ |- _ => destruct H
         | H : _ /\ _ |- _ => destruct H
         | H : exists _, _ |- _ => destruct H
         end; congruence ]).
Qed.

(** X2: [None], the default of every argument, is rejected by the three
    section constructors but skipped by [Table.create]: without children,
    [Thead.create], [Tbody.create] and [Tfoot.create] raise their
    [TypeError], while [Table.create] with no headers, rows and footers
    returns a table holding at most its caption. *)
Theorem create_default_arguments (caption : pyval) (props : props_t) :
  Thead_create [] PNone props
  = Raise (TypeError (Msg "table headers should be a list or tuple"))
  /\ Tbody_create [] PNone props
     = Raise (TypeError (Msg
         "table rows should be a list or tuple containing inner lists or tuples."))
  /\ Tfoot_create [] PNone props
     = Raise (TypeError (Msg "table headers should be a list or tuple"))
  /\ Table_create [] caption PNone PNone PNone props
     = Ok (PComponent "Table"
             (when_given caption [TableCaption_create caption]) props).
Proof.
  split; [reflexivity |]. split; [reflexivity |]. split; [reflexivity |].
  rewrite Table_create_inferred. cbn [is_not_None bind].
  rewrite !app_nil_r. reflexivity.
Qed.


(** X10: without explicit children [Tfoot.create] is [Thead.create] under
    another tag: on every value it raises the same error or returns the same
    node retagged "Tfoot".  With explicit children the two differ by their
    [invalid_children] lists: a [Th] or [Td] child is accepted by
    [Thead.create] and refused by [Tfoot.create]. *)
Theorem Tfoot_create_as_Thead_create (v : pyval) (props : props_t) :
  Tfoot_create [] v props
  = (thead <- Thead_create [] v props ;; Ok (with_tag "Tfoot" thead))
  /\ (forall cls cell_children cell_props,
      Thead_create [PComponent (cell_tag cls) cell_children cell_props] v props
      = Ok (PComponent "Thead"
              [PComponent (cell_tag cls) cell_children cell_props] props)
      /\ Tfoot_create [PComponent (cell_tag cls) cell_children cell_props]
           v props
         = Raise (ValueError (MsgChild "Tfoot" (cell_tag cls)))).
Proof.
  split.
  - unfold Tfoot_create, Thead_create. cbn [List.length Nat.eqb].
    rewrite validate_footers_spec, validate_headers_spec.
    destruct (list_tuple_like v); [| reflexivity].
    cbn [bind].
    destruct (Tr_create [] "header" v []) as [tr | e] eqn:Htr; [| reflexivity].
    destruct (Tr_create_Ok _ _ _ _ Htr) as (ch & ->). reflexivity.
  - intros cls cell_children cell_props. destruct cls; split; reflexivity.
Qed.

(** X11: the [invalid_children] lists agree on the sections: every class
    that declares a list forbids [Tbody] and [Thead] as children, and none
    forbids a [Table] or a [TableCaption]. *)
Theorem invalid_children_sections (tag : string) :
  invalid_children tag <> [] ->
  In "Tbody" (invalid_children tag)
  /\ In "Thead" (invalid_children tag)
  /\ ~ In "Table" (invalid_children tag)
  /\ ~ In "TableCaption" (invalid_children tag).
Proof.
  unfold invalid_children.
  destruct (tag =? "Thead"); [| destruct (tag =? "Tbody");
    [| destruct (tag =? "Tfoot"); [| destruct (tag =? "Tr");
      [| destruct (tag =? "Th"); [| destruct (tag =? "Td")]]]]];
    intros Hne; try (exfalso; apply Hne; reflexivity);
    cbn [In]; repeat split; try tauto;
    intros H; repeat (destruct H as [H | H]; [discriminate H |]); exact H.
Qed.

(** X12: the props given to [Table.create] stay on the table: the node
    returned without explicit children carries the tag "Table" and the props
    passed, and the caption and sections it infers carry no props. *)
Theorem Table_create_props (caption headers rows footers : pyval)
  (props : props_t) (table : pyval) :
  Table_create [] caption headers rows footers props = Ok table ->
  tag_of table = Some "Table"
  /\ props_of table = props
  /\ Forall (fun node => props_of node = []) (children_of table).
Proof.
  intros H.
  destruct (Table_create_Ok _ _ _ _ _ H)
    as (theads & tbodies & tfoots & Hh & Hr & Hf & ->).
  split; [reflexivity |]. split; [reflexivity |].
  cbn [children_of]. repeat (apply Forall_app; split).
  - unfold when_given. destruct (is_not_None caption); repeat constructor.
  - destruct (is_not_None headers); [| subst; constructor].
    destruct Hh as (th & Hth & ->).
    destruct (Thead_create_Ok _ _ Hth) as (tr & _ & ->). repeat constructor.
  - destruct (is_not_None rows); [| subst; constructor].
    destruct Hr as (tb & Htb & ->).
    destruct (Tbody_create_Ok _ _ Htb) as (_ & ch & -> & _).
    repeat constructor.
  - destruct (is_not_None footers); [| subst; constructor].
    destruct Hf as (tf & Htf & ->).
    destruct (Tfoot_create_Ok _ _ Htf) as (tr & _ & ->). repeat constructor.
Qed.

(** What a constructor returned was accepted by the inherited constructor
    with the children it holds. *)
Lemma bound_node_accepted (tag : string) (inferred : result (list pyval))
  (props : props_t) (node : pyval) :
  (children <- inferred ;; Component_create tag children props) = Ok node ->
  Component_create tag (children_of node) props = Ok node.
Proof.
  intros H. apply bind_Ok in H. destruct H as (ch & _ & H).
  pose proof (Component_create_Ok _ _ _ H) as (_ & E).
  subst node. exact H.
Qed.

(** X13: inference followed by explicit construction is a round trip: the
    children a constructor inferred, passed back as explicit children with
    the same props, give the same node whatever the other arguments are
    (for [Tbody] and [Table] when at least one child was inferred). *)
Theorem inferred_children_round_trip :
  (forall headers headers' props thead,
      Thead_create [] headers props = Ok thead ->
      Thead_create (children_of thead) headers' props = Ok thead)
  /\ (forall footers footers' props tfoot,
      Tfoot_create [] footers props = Ok tfoot ->
      Tfoot_create (children_of tfoot) footers' props = Ok tfoot)
  /\ (forall rows rows' props tbody,
      Tbody_create [] rows props = Ok tbody ->
      children_of tbody <> [] ->
      Tbody_create (children_of tbody) rows' props = Ok tbody)
  /\ (forall caption headers rows footers caption' headers' rows' footers'
             props table,
      Table_create [] caption headers rows footers props = Ok table ->
      children_of table <> [] ->
      Table_create (children_of table) caption' headers' rows' footers' props
      = Ok table).
Proof.
  split; [| split; [| split]].
  - intros headers headers' props thead H.
    pose proof (bound_node_accepted _ _ _ H) as Hacc.
    destruct (Thead_create_Ok _ _ H) as (tr & _ & E).
    unfold Thead_create. rewrite E in *. exact Hacc.
  - intros footers footers' props tfoot H.
    pose proof (bound_node_accepted _ _ _ H) as Hacc.
    destruct (Tfoot_create_Ok _ _ H) as (tr & _ & E).
    unfold Tfoot_create. rewrite E in *. exact Hacc.
  - intros rows rows' props tbody H Hne.
    pose proof (bound_node_accepted _ _ _ H) as Hacc.
    unfold Tbody_create. rewrite (length_eqb_0_nonempty Hne). exact Hacc.
  - intros caption headers rows footers caption' headers' rows' footers'
      props table H Hne.
    pose proof (bound_node_accepted _ _ _ H) as Hacc.
    unfold Table_create. rewrite (length_eqb_0_nonempty Hne). exact Hacc.
Qed.

End Table.

(** ** Worked examples *)

(** [Thead.create(headers=["a", 2])]. *)
Lemma Thead_create_header_row_example :
  Tr_create opaque_objects [] "header" (PSeq SeqList [PStr "a"; PInt 2]) []
  = Ok (PComponent "Tr"
          [PComponent "Th" [PStr "a"] []; PComponent "Th" [PInt 2] []] [])
  /\ Thead_create opaque_objects [] (PSeq SeqList [PStr "a"; PInt 2]) []
     = Ok (PComponent "Thead"
             [PComponent "Tr"
                [PComponent "Th" [PStr "a"] []; PComponent "Th" [PInt 2] []]
                []] []).
Proof.
  apply (proj1 (Thead_create_header_row opaque_objects
                  [PStr "a"; PInt 2] [])).
  reflexivity.
Defined.

(** [Tr.create(cell_type="data", cells=("a", 2))]. *)
Lemma Tr_create_cell_type_example :
  Tr_create opaque_objects [] "data" (PSeq SeqTuple [PStr "a"; PInt 2]) []
  = Ok (PComponent "Tr"
          [PComponent "Td" [PStr "a"] []; PComponent "Td" [PInt 2] []] []).
Proof.
  apply (proj1 (proj2 (Tr_create_cell_type opaque_objects SeqTuple
                         [PStr "a"; PInt 2] []))).
  reflexivity.
Defined.

(** [Table.create("x", headers=3, rows=4, footers=5)] and the three section
    constructors with the same explicit child: the malformed arguments are
    not looked at. *)
Lemma explicit_children_bypass_example :
  Table_create opaque_objects [PStr "x"] PNone (PInt 3) (PInt 4) (PInt 5) []
  = Ok (PComponent "Table" [PStr "x"] [])
  /\ Thead_create opaque_objects [PStr "x"] (PInt 3) []
     = Ok (PComponent "Thead" [PStr "x"] [])
  /\ Tbody_create opaque_objects [PStr "x"] (PInt 4) []
     = Ok (PComponent "Tbody" [PStr "x"] [])
  /\ Tfoot_create opaque_objects [PStr "x"] (PInt 5) []
     = Ok (PComponent "Tfoot" [PStr "x"] []).
Proof.
  destruct (@explicit_children_bypass opaque_objects [PStr "x"] PNone
              (PInt 3) (PInt 4) (PInt 5) [])
    as (Htable & Hhead & Hbody & Hfoot & _); [discriminate |].
  repeat split; assumption.
Defined.

(** [Tr.create(cells=[1])], with the default [cell_type]. *)
Lemma Tr_create_default_cell_type_example :
  Tr_create opaque_objects [] EmptyString (PSeq SeqList [PInt 1]) []
  = Ok (PComponent "Tr" [] []).
Proof.
  apply (@Tr_create_unknown_cell_type opaque_objects EmptyString
           (PSeq SeqList [PInt 1]) []); discriminate.
Defined.

(** [headers=3] raises in both constructors, [headers=["a"]] in neither. *)
Lemma headers_footers_validation_example :
  (Thead_create opaque_objects [] (PInt 3) []
   = Raise (TypeError (Msg "table headers should be a list or tuple"))
   /\ Tfoot_create opaque_objects [] (PInt 3) []
      = Raise (TypeError (Msg "table headers should be a list or tuple")))
  /\ (exists thead tfoot,
        Thead_create opaque_objects [] (PSeq SeqList [PStr "a"]) []
        = Ok thead
        /\ Tfoot_create opaque_objects [] (PSeq SeqList [PStr "a"]) []
           = Ok tfoot).
Proof.
  split.
  - apply (proj1 (headers_footers_validation opaque_objects (PInt 3) [])).
    reflexivity.
  - apply (proj2 (headers_footers_validation opaque_objects
                    (PSeq SeqList [PStr "a"]) [])).
    reflexivity.
Defined.

(** [Tfoot.create(footers=("total", 7))] and [Tfoot.create(footers=7)]. *)
Lemma Tfoot_create_header_cells_example :
  (exists tfoot,
      Tfoot_create opaque_objects [] (PSeq SeqTuple [PStr "total"; PInt 7]) []
      = Ok tfoot)
  /\ (TypeError (Msg "table headers should be a list or tuple")
      = TypeError (Msg "table headers should be a list or tuple")
      /\ Tfoot_create opaque_objects [] (PInt 7) []
         = Raise (TypeError (Msg "table headers should be a list or tuple"))).
Proof.
  split.
  - apply (proj1 (Tfoot_create_header_cells opaque_objects
                    (PSeq SeqTuple [PStr "total"; PInt 7]) []));
      reflexivity.
  - apply (proj2 (Tfoot_create_header_cells opaque_objects (PInt 7) [])).
    reflexivity.
Defined.

(** A [Var] of type [List[List[str]]] against the rows [[1], (2, 3)]. *)
Lemma static_or_dynamic_construction_example :
  Tbody_create opaque_objects []
    (PVar (TyGeneric c_list (TyGeneric c_list (TyClass c_str) []) []) "rows") []
  = Ok (PComponent "Tbody"
          [PForeach
             (PVar (TyGeneric c_list (TyGeneric c_list (TyClass c_str) []) [])
                "rows")
             RenderRow] [])
  /\ exists trs,
      static_nodes opaque_objects RenderRow
        [PSeq SeqList [PInt 1]; PSeq SeqTuple [PInt 2; PInt 3]] = Ok trs
      /\ List.length trs = 2
      /\ Tbody_create opaque_objects []
           (PSeq SeqList [PSeq SeqList [PInt 1]; PSeq SeqTuple [PInt 2; PInt 3]])
           []
         = Ok (PComponent "Tbody" trs []).
Proof.
  destruct (static_or_dynamic_construction opaque_objects)
    as (Hvar & _ & Hplain & _).
  split.
  - apply Hvar. reflexivity.
  - apply (Hplain SeqList
             [PSeq SeqList [PInt 1]; PSeq SeqTuple [PInt 2; PInt 3]] []).
    reflexivity.
Defined.

(** [Table.create(caption="cap", headers=["h"], footers=("f",))]: no body. *)
Lemma Table_create_children_order_example :
  Table_create opaque_objects [] (PStr "cap") (PSeq SeqList [PStr "h"])
    PNone (PSeq SeqTuple [PStr "f"]) []
  = Ok (PComponent "Table"
          [PComponent "TableCaption" [PStr "cap"] [];
           PComponent "Thead"
             [PComponent "Tr" [PComponent "Th" [PStr "h"] []] []] [];
           PComponent "Tfoot"
             [PComponent "Tr" [PComponent "Th" [PStr "f"] []] []] []] [])
  /\ map tag_of
       [PComponent "TableCaption" [PStr "cap"] [];
        PComponent "Thead"
          [PComponent "Tr" [PComponent "Th" [PStr "h"] []] []] [];
        PComponent "Tfoot"
          [PComponent "Tr" [PComponent "Th" [PStr "f"] []] []] []]
     = [Some "TableCaption"; Some "Thead"; Some "Tfoot"].
Proof.
  refine (@Table_create_children_order opaque_objects (PStr "cap")
            (PSeq SeqList [PStr "h"]) PNone (PSeq SeqTuple [PStr "f"]) []
            (PComponent "Thead"
               [PComponent "Tr" [PComponent "Th" [PStr "h"] []] []] [])
            PNone
            (PComponent "Tfoot"
               [PComponent "Tr" [PComponent "Th" [PStr "f"] []] []] [])
            _ _ _); intros E; try reflexivity; discriminate E.
Defined.

(** A table of plain data is validly nested. *)
Lemma Table_create_nesting_example :
  Table_create opaque_objects [] (PStr "cap") (PSeq SeqList [PStr "h"])
    (PSeq SeqList [PSeq SeqList [PInt 1]]) PNone []
  = Ok (PComponent "Table"
          [PComponent "TableCaption" [PStr "cap"] [];
           PComponent "Thead"
             [PComponent "Tr" [PComponent "Th" [PStr "h"] []] []] [];
           PComponent "Tbody"
             [PComponent "Tr" [PComponent "Td" [PInt 1] []] []] []] [])
  /\ nesting_ok
       (PComponent "Table"
          [PComponent "TableCaption" [PStr "cap"] [];
           PComponent "Thead"
             [PComponent "Tr" [PComponent "Th" [PStr "h"] []] []] [];
           PComponent "Tbody"
             [PComponent "Tr" [PComponent "Td" [PInt 1] []] []] []] [])
     = true.
Proof.
  split; [reflexivity |].
  exact (@Table_create_nesting opaque_objects (PStr "cap")
           (PSeq SeqList [PStr "h"]) (PSeq SeqList [PSeq SeqList [PInt 1]])
           PNone [] _ eq_refl eq_refl eq_refl eq_refl eq_refl).
Defined.

(** ** Where three claims stop *)

(** [Thead.create(headers=[Tr.create()])]: the row given as a header is
    refused by the [Th] cell that should hold it, [Th] listing "Tr" among its
    invalid children, and no header is returned. *)
Lemma header_component_refused :
  Tr_create opaque_objects [] EmptyString PNone []
  = Ok (PComponent "Tr" [] [])
  /\ In "Tr" (invalid_children "Th")
  /\ Thead_create opaque_objects [] (PSeq SeqList [PComponent "Tr" [] []]) []
     = Raise (ValueError (MsgChild "Th" "Tr")).
Proof.
  split; [reflexivity |]. split; [| reflexivity].
  cbn. right. right. left. reflexivity.
Qed.

(** [Tr.create(cell_type="header", cells=[Td.create("x")])]: the data cell
    is refused by the [Th] cell, and no row is returned. *)
Lemma data_cell_refused_in_header_cell :
  cell_create Td (PStr "x") = Ok (PComponent "Td" [PStr "x"] [])
  /\ Tr_create opaque_objects [] "header"
       (PSeq SeqList [PComponent "Td" [PStr "x"] []]) []
     = Raise (ValueError (MsgChild "Th" "Td")).
Proof. split; reflexivity. Qed.

(** [Thead.create(headers=[Td.create("x")])] and the same footers: a list,
    so list/tuple-like, and yet both constructors raise. *)
Lemma list_like_headers_refused :
  list_tuple_like (PSeq SeqList [PComponent "Td" [PStr "x"] []]) = true
  /\ Thead_create opaque_objects []
       (PSeq SeqList [PComponent "Td" [PStr "x"] []]) []
     = Raise (ValueError (MsgChild "Th" "Td"))
  /\ Tfoot_create opaque_objects []
       (PSeq SeqList [PComponent "Td" [PStr "x"] []]) []
     = Raise (ValueError (MsgChild "Th" "Td")).
Proof. repeat split. Qed.

(** ** Further worked examples *)

(** [Tr.create("x", cell_type="data", cells=5)]. *)
Lemma Tr_create_explicit_children_example :
  Tr_create opaque_objects [PStr "x"] "data" (PInt 5) []
  = Ok (PComponent "Tr" [PStr "x"] []).
Proof.
  destruct (@Tr_create_explicit_children opaque_objects [PStr "x"] "data"
              (PInt 5) []) as (_ & Hok & _); [discriminate |].
  apply Hok. reflexivity.
Defined.

(** [Tr.create(cell_type="data", cells=0)]. *)
Lemma Tr_create_falsy_cells_example :
  Tr_create opaque_objects [] "data" (PInt 0) [] = Ok (PComponent "Tr" [] []).
Proof.
  apply (@Tr_create_falsy_cells opaque_objects Td (PInt 0) []); reflexivity.
Defined.

(** [Tr.create(cell_type="header", cells=5)] and [cells=True]. *)
Lemma Tr_create_number_cells_example :
  Tr_create opaque_objects [] "header" (PInt 5) []
  = Raise (TypeError (Msg "'int' object is not iterable"))
  /\ Tr_create opaque_objects [] "header" (PBool true) []
     = Raise (TypeError (Msg "'bool' object is not iterable")).
Proof.
  apply (@Tr_create_number_cells opaque_objects Th 5%Z []). discriminate.
Defined.

(** [Tbody.create(rows=[[1], "ab"])]: two rows, the second from the string. *)
Lemma Tbody_create_row_per_element_example :
  Forall2 (fun row tr => Tr_create opaque_objects [] "data" row [] = Ok tr)
    [PSeq SeqList [PInt 1]; PStr "ab"]
    [PComponent "Tr" [PComponent "Td" [PInt 1] []] [];
     PComponent "Tr"
       [PComponent "Td" [PStr "a"] []; PComponent "Td" [PStr "b"] []] []]
  /\ List.length
       [PComponent "Tr" [PComponent "Td" [PInt 1] []] [];
        PComponent "Tr"
          [PComponent "Td" [PStr "a"] []; PComponent "Td" [PStr "b"] []] []]
     = 2.
Proof.
  exact (@Tbody_create_row_per_element opaque_objects SeqList
           [PSeq SeqList [PInt 1]; PStr "ab"] []
           (PComponent "Tbody"
              [PComponent "Tr" [PComponent "Td" [PInt 1] []] [];
               PComponent "Tr"
                 [PComponent "Td" [PStr "a"] [];
                  PComponent "Td" [PStr "b"] []] []] [])
           eq_refl).
Defined.

(** [Tbody.create(rows=[[1], 5, "x"])]: the error of the second row. *)
Lemma Tbody_create_first_failing_row_example :
  Tbody_create opaque_objects []
    (PSeq SeqList [PSeq SeqList [PInt 1]; PInt 5; PStr "x"]) []
  = Raise (TypeError (Msg "'int' object is not iterable")).
Proof.
  apply (@Tbody_create_first_failing_row opaque_objects SeqList
           [PSeq SeqList [PInt 1]] (PInt 5) [PStr "x"] []
           (TypeError (Msg "'int' object is not iterable"))).
  - reflexivity.
  - constructor; [| constructor].
    exists (PComponent "Tr" [PComponent "Td" [PInt 1] []] []). reflexivity.
  - reflexivity.
Defined.

(** The list of [Td], the shortest one. *)
Lemma invalid_children_sections_example :
  In "Tbody" (invalid_children "Td")
  /\ In "Thead" (invalid_children "Td")
  /\ ~ In "Table" (invalid_children "Td")
  /\ ~ In "TableCaption" (invalid_children "Td").
Proof.
  apply (@invalid_children_sections "Td"). discriminate.
Defined.

(** [Table.create(caption="cap", headers=["h"], size="sm")]. *)
Lemma Table_create_props_example :
  tag_of
    (PComponent "Table"
       [PComponent "TableCaption" [PStr "cap"] [];
        PComponent "Thead"
          [PComponent "Tr" [PComponent "Th" [PStr "h"] []] []] []]
       [("size", PStr "sm")])
  = Some "Table"
  /\ props_of
       (PComponent "Table"
          [PComponent "TableCaption" [PStr "cap"] [];
           PComponent "Thead"
             [PComponent "Tr" [PComponent "Th" [PStr "h"] []] []] []]
          [("size", PStr "sm")])
     = [("size", PStr "sm")]
  /\ Forall (fun node => props_of node = [])
       [PComponent "TableCaption" [PStr "cap"] [];
        PComponent "Thead"
          [PComponent "Tr" [PComponent "Th" [PStr "h"] []] []] []].
Proof.
  exact (@Table_create_props opaque_objects (PStr "cap")
           (PSeq SeqList [PStr "h"]) PNone PNone [("size", PStr "sm")] _
           eq_refl).
Defined.

(** The header of ["h"] rebuilt from its row, beside the malformed
    [headers=3]; the body of [[1]] rebuilt from its row, beside [rows=4]. *)
Lemma inferred_children_round_trip_example :
  Thead_create opaque_objects
    [PComponent "Tr" [PComponent "Th" [PStr "h"] []] []] (PInt 3) []
  = Ok (PComponent "Thead"
          [PComponent "Tr" [PComponent "Th" [PStr "h"] []] []] [])
  /\ Tbody_create opaque_objects
       [PComponent "Tr" [PComponent "Td" [PInt 1] []] []] (PInt 4) []
     = Ok (PComponent "Tbody"
             [PComponent "Tr" [PComponent "Td" [PInt 1] []] []] []).
Proof.
  destruct (inferred_children_round_trip opaque_objects)
    as (Hhead & _ & Hbody & _).
  split.
  - exact (Hhead (PSeq SeqList [PStr "h"]) (PInt 3) [] _ eq_refl).
  - refine (Hbody (PSeq SeqList [PSeq SeqList [PInt 1]]) (PInt 4) [] _
              eq_refl _).
    discriminate.
Defined.
